(** * myFlix movie API: a shallow embedding of index.js and auth.js

    The Express application of the repository is embedded as a family of
    request handlers running in a small state monad over the document
    store (the users and movies collections) that also records every
    store operation issued, so that "no data access" is a statement about
    the recorded trace.

    Strings are sequences of 8-bit characters.  Request fields are
    string-valued, an absent field being JavaScript's [undefined]. *)

From stdpp Require Import gmap strings list.
From Stdlib Require Import ZArith Ascii String.

Open Scope string_scope.
Open Scope Z_scope.

(** ** Data model (the documents the handlers read and write) *)

Module Genre.
Record t := { Name : string; Description : string }.
End Genre.

Module Director.
Record t := { Name : string; Bio : string; Birth : string; Death : option string }.
End Director.

Module Movie.
Record t := {
  _id : string;
  Title : string;
  Description : string;
  Genre : Genre.t;
  Director : Director.t;
  ImagePath : string
}.
End Movie.

(** A user document.  Every field except the store-assigned identifier and
    the favourites array may be missing, as in a JavaScript object. *)
Module User.
Record t := {
  _id : string;
  Username : option string;
  Password : option string;
  Email : option string;
  Birthday : option string;
  FavoriteMovies : list string
}.
End User.

(** ** Tokens (jsonwebtoken) *)

Inductive algorithm := HS256 | HS384 | HS512.

(** The claims of a token: the object handed to [jwt.sign] together with the
    registered claims [sub], [iat] and [exp] (seconds). *)
Record claims := {
  claim_user : User.t;
  sub : string;
  iat : Z;
  exp : Z
}.

Record token := {
  alg : algorithm;
  payload : claims;
  signature : string
}.

(** ** Requests *)

Inductive route :=
| GetMovies
| GetMovie (MovieID : string)
| GetMoviesByGenre (genre : string)
| GetDirector (name : string)
| PostUsers
| PutUser (Username : string)
| PostFavorite (Username MovieID : string)
| DeleteFavorite (Username MovieID : string)
| GetFavorites (Username : string)
| DeleteUser (Username : string)
| GetUser (Username : string)
| PostLogin.

(** [headers] is keyed by lower-case header names, as Node delivers them;
    [bearer] is the token carried by the Authorization header, [None] when
    the header is missing or does not parse as a token. *)
Record request := {
  target : route;
  body : gmap string string;
  query : gmap string string;
  headers : gmap string string;
  bearer : option token
}.

(** [req.params], as Express fills it from the matched path. *)
Definition params (req : request) : gmap string string :=
  match target req with
  | GetMovies | PostUsers | PostLogin => ∅
  | GetMovie m => {[ "MovieID" := m ]}
  | GetMoviesByGenre g => {[ "genre" := g ]}
  | GetDirector n => {[ "name" := n ]}
  | PutUser u | GetFavorites u | DeleteUser u | GetUser u => {[ "Username" := u ]}
  | PostFavorite u m | DeleteFavorite u m => <[ "MovieID" := m ]> {[ "Username" := u ]}
  end.

(** ** Store operations, as they appear in the trace *)

Record updateObj := {
  set_Username : option string;
  set_Password : option string;
  set_Email : option string;
  set_Birthday : option string
}.

Inductive dbop :=
| Movies_find
| Movies_findOne_id (id : string)
| Movies_find_genre (g : string)
| Movies_findOne_director (n : string)
| Users_findOne (u : option string)
| Users_create (doc : updateObj)
| Users_findOneAndUpdate_set (u : string) (upd : updateObj)
| Users_findOneAndUpdate_push (u : string) (m : string)
| Users_findOneAndUpdate_pull (u : string) (m : string)
| Users_findOneAndRemove (u : string).

(** ** External collaborators

    What the repository takes from its libraries and from models.js:
    bcrypt hashing, validator's e-mail syntax, the xss filter, the HMAC of
    jsonwebtoken, and the store's own failures and identifiers. *)
Class Collaborators := {
  (** [Users.hashPassword] on a string *)
  hashPassword : string → string;
  (** [Users.hashPassword(undefined)]: [None] when it throws *)
  hashPassword_undefined : option string;
  (** [user.validatePassword(password)] against the stored hash *)
  validatePassword : string → string → bool;
  (** validator's [isEmail] *)
  isEmail : string → bool;
  (** the [xss] filter *)
  xss : string → string;
  (** the signature jsonwebtoken computes over the claims *)
  jws_sign : algorithm → string → claims → string;
  (** an operation the store refuses, with the error it reports *)
  dbFault : dbop → option string;
  (** the identifier the store gives a new document *)
  newId : list User.t → string
}.

(** ** Character classes and the validators of validator.js *)

Definition in_range (lo hi c : ascii) : bool :=
  ((N_of_ascii lo <=? N_of_ascii c) && (N_of_ascii c <=? N_of_ascii hi))%N.

Definition is_digit (c : ascii) : bool := in_range "0" "9" c.
Definition is_upper (c : ascii) : bool := in_range "A" "Z" c.
Definition is_lower (c : ascii) : bool := in_range "a" "z" c.
Definition alnum_char (c : ascii) : bool := is_digit c || is_upper c || is_lower c.

Fixpoint all_chars (p : ascii → bool) (s : string) : bool :=
  match s with
  | EmptyString => true
  | String c s' => p c && all_chars p s'
  end.

Definition lower_char (c : ascii) : ascii :=
  if is_upper c then ascii_of_N (N_of_ascii c + 32) else c.

Fixpoint toLowerCase (s : string) : string :=
  match s with
  | EmptyString => EmptyString
  | String c s' => String (lower_char c) (toLowerCase s')
  end.

(** [isLength({min})] *)
Definition isLength (min : nat) (s : string) : bool := Nat.leb min (String.length s).

(** [isAlphanumeric()], locale en-US: [/^[0-9A-Z]+$/i] *)
Definition isEmpty (s : string) : bool :=
  match s with EmptyString => true | _ => false end.

Definition isAlphanumeric (s : string) : bool := negb (isEmpty s) && all_chars alnum_char s.

(** ** express-validator: [check(field, message)] *)

Inductive location := Lbody | Lcookies | Lheaders | Lparams | Lquery.

Record field_instance := {
  fi_location : location;
  fi_value : option string
}.

(** The value of a field at one location of the request.  No cookie parser is
    mounted, so [req.cookies] holds nothing; header names are looked up in
    lower case. *)
Definition req_lookup (req : request) (loc : location) (f : string) : option string :=
  match loc with
  | Lbody => body req !! f
  | Lcookies => None
  | Lheaders => headers req !! toLowerCase f
  | Lparams => params req !! f
  | Lquery => query req !! f
  end.

Definition check_locations : list location := [Lbody; Lcookies; Lheaders; Lparams; Lquery].

Definition has_value (i : field_instance) : bool :=
  match fi_value i with Some _ => true | None => false end.

(** [check] selects the field at every location; the locations that hold a
    value must all pass, and when none does the first location stands in for
    the report. *)
Definition field_instances (req : request) (f : string) : list field_instance :=
  let all := map (λ loc, {| fi_location := loc; fi_value := req_lookup req loc f |}) check_locations in
  match List.filter has_value all with
  | [] => [{| fi_location := Lbody; fi_value := req_lookup req Lbody f |}]
  | withValue => withValue
  end.

(** validators run on [toString(value)], the empty string for [undefined] *)
Definition toString (v : option string) : string :=
  match v with Some s => s | None => "" end.

Record verror := {
  value : option string;
  msg : string;
  param : string;
  err_location : location
}.

Definition check (f message : string) (validator : string → bool) (req : request) : list verror :=
  omap (λ i, if validator (toString (fi_value i)) then None
             else Some {| value := fi_value i; msg := message; param := f;
                          err_location := fi_location i |})
       (field_instances req f).

(** ** Responses *)

(** The [user] member of the log-in failure body: the callback's second
    argument, [false] when the strategy fails, [undefined] on an error. *)
Inductive js_user := user_undefined | user_false.

Record login_user := {
  lu_Username : string;
  lu_FavoriteMovies : list string;
  lu_Email : string;
  lu_Birthday : string
}.

Inductive json :=
| JMovies (ms : list Movie.t)
| JMovie (m : option Movie.t)
| JDirector (d : Director.t)
| JUser (u : option User.t)
| JNewUser (Username Email Birthday : option string)
| JFavorites (FavoriteMovies : list string)
| JErrors (errors : list verror)
| JLoginFailed (message : string) (user : js_user)
| JLoginOk (tok : token) (user : login_user)
| Text (s : string).

Record response := { status : Z; content : json }.

(** [res.status(code).json(j)] and [res.json(j)] *)
Definition res_status (code : Z) (j : json) : response := {| status := code; content := j |}.
Definition res_json (j : json) : response := res_status 200 j.

(** ** The store and the monad of handlers *)

Record world := {
  users : list User.t;
  movies : list Movie.t;
  clock : Z;
  log : list dbop
}.

Definition M (A : Type) : Type := world → A * world.

Definition ret {A} (a : A) : M A := λ w, (a, w).
Definition bind {A B} (c : M A) (k : A → M B) : M B :=
  λ w, let '(a, w') := c w in k a w'.

Notation "'do' x <- c ; k" := (bind c (λ x, k))
  (at level 10, x name, c at level 100, k at level 200).

Definition get_clock : M Z := λ w, (clock w, w).

Definition with_users (l : list User.t) (w : world) : world :=
  {| users := l; movies := movies w; clock := clock w; log := log w |}.

Definition logged (op : dbop) (w : world) : world :=
  {| users := users w; movies := movies w; clock := clock w; log := log w ++ [op] |}.

Section App.
Context `{Collaborators}.

(** A store operation: it is recorded, then either refused by the store
    with an error or run.  The result is the pair [(err, doc)] of the
    callback, as a sum. *)
Definition store_op {A} (op : dbop) (run : world → A * world) : M (string + A) :=
  λ w, let w' := logged op w in
       match dbFault op with
       | Some e => (inl e, w')
       | None => let '(a, w'') := run w' in (inr a, w'')
       end.

Definition read {A} (f : world → A) : world → A * world := λ w, (f w, w).

(** *** Movies *)

Definition Movies_find_ : M (string + list Movie.t) :=
  store_op Movies_find (read movies).

Definition Movies_findOne_by_id (id : string) : M (string + option Movie.t) :=
  store_op (Movies_findOne_id id)
    (read (λ w, List.find (λ m, bool_decide (Movie._id m = id)) (movies w))).

Definition Movies_find_by_genre (g : string) : M (string + list Movie.t) :=
  store_op (Movies_find_genre g)
    (read (λ w, List.filter (λ m, bool_decide (Genre.Name (Movie.Genre m) = g)) (movies w))).

Definition Movies_findOne_by_director (n : string) : M (string + option Movie.t) :=
  store_op (Movies_findOne_director n)
    (read (λ w, List.find (λ m, bool_decide (Director.Name (Movie.Director m) = n)) (movies w))).

(** *** Users *)

(** the filter [{ Username: u }]; an [undefined] value matches the documents
    that have no Username *)
Definition by_Username (u : option string) (d : User.t) : bool :=
  bool_decide (User.Username d = u).

Definition Users_findOne_ (u : option string) : M (string + option User.t) :=
  store_op (Users_findOne u) (read (λ w, List.find (by_Username u) (users w))).

Definition new_document (l : list User.t) (doc : updateObj) : User.t :=
  {| User._id := newId l;
     User.Username := set_Username doc;
     User.Password := set_Password doc;
     User.Email := set_Email doc;
     User.Birthday := set_Birthday doc;
     User.FavoriteMovies := [] |}.

Definition Users_create_ (doc : updateObj) : M (string + User.t) :=
  store_op (Users_create doc)
    (λ w, let d := new_document (users w) doc in (d, with_users (users w ++ [d]) w)).

(** [findOneAndUpdate(filter, update, { new: true })]: the first matching
    document is updated and returned as updated; [null] when none matches. *)
Fixpoint update_first (p : User.t → bool) (f : User.t → User.t) (l : list User.t)
  : option User.t * list User.t :=
  match l with
  | [] => (None, [])
  | d :: l' =>
      if p d then (Some (f d), f d :: l')
      else let '(r, l'') := update_first p f l' in (r, d :: l'')
  end.

(** [findOneAndRemove(filter)]: the first matching document is removed and
    returned. *)
Fixpoint remove_first (p : User.t → bool) (l : list User.t) : option User.t * list User.t :=
  match l with
  | [] => (None, [])
  | d :: l' =>
      if p d then (Some d, l')
      else let '(r, l'') := remove_first p l' in (r, d :: l'')
  end.

Definition or_else (new old : option string) : option string :=
  match new with Some v => Some v | None => old end.

(** [$set] *)
Definition apply_set (upd : updateObj) (d : User.t) : User.t :=
  {| User._id := User._id d;
     User.Username := or_else (set_Username upd) (User.Username d);
     User.Password := or_else (set_Password upd) (User.Password d);
     User.Email := or_else (set_Email upd) (User.Email d);
     User.Birthday := or_else (set_Birthday upd) (User.Birthday d);
     User.FavoriteMovies := User.FavoriteMovies d |}.

Definition with_favorites (fav : list string) (d : User.t) : User.t :=
  {| User._id := User._id d;
     User.Username := User.Username d;
     User.Password := User.Password d;
     User.Email := User.Email d;
     User.Birthday := User.Birthday d;
     User.FavoriteMovies := fav |}.

(** [$push] appends; [$pull] removes every occurrence *)
Definition apply_push (m : string) (d : User.t) : User.t :=
  with_favorites (User.FavoriteMovies d ++ [m]) d.

Definition apply_pull (m : string) (d : User.t) : User.t :=
  with_favorites (List.filter (λ x, negb (bool_decide (x = m))) (User.FavoriteMovies d)) d.

Definition updating (u : string) (f : User.t → User.t) : world → option User.t * world :=
  λ w, let '(r, l) := update_first (by_Username (Some u)) f (users w) in (r, with_users l w).

Definition Users_findOneAndUpdate_set_ (u : string) (upd : updateObj) : M (string + option User.t) :=
  store_op (Users_findOneAndUpdate_set u upd) (updating u (apply_set upd)).

Definition Users_findOneAndUpdate_push_ (u m : string) : M (string + option User.t) :=
  store_op (Users_findOneAndUpdate_push u m) (updating u (apply_push m)).

Definition Users_findOneAndUpdate_pull_ (u m : string) : M (string + option User.t) :=
  store_op (Users_findOneAndUpdate_pull u m) (updating u (apply_pull m)).

Definition Users_findOneAndRemove_ (u : string) : M (string + option User.t) :=
  store_op (Users_findOneAndRemove u)
    (λ w, let '(r, l) := remove_first (by_Username (Some u)) (users w) in (r, with_users l w)).

End App.

(** ** auth.js and the passport strategies *)

Definition jwtSecret : string := "your_jwt_secret".

(** ['7d'] in seconds *)
Definition seven_days : Z := 7 * 24 * 60 * 60.

(** Why the local strategy turned a log-in down; it reaches the callback as
    [info]. *)
Inductive failure := MissingCredentials | NoSuchUser | WrongPassword.

(** The arguments [(error, user, info)] of the callback given to
    [passport.authenticate('local', ...)]. *)
Inductive auth_result :=
| AuthError (error : string)
| AuthFail (info : failure)
| AuthOk (user : User.t).

Section Auth.
Context `{Collaborators}.

(** [jwt.sign(user, jwtSecret, { subject: user.Username, expiresIn: '7d',
    algorithm: 'HS256' })]; jsonwebtoken refuses a subject that is not a
    string. *)
Definition generateJWTToken (user : User.t) (now : Z) : option token :=
  match User.Username user with
  | Some subject =>
      let c := {| claim_user := user; sub := subject; iat := now; exp := now + seven_days |} in
      Some {| alg := HS256; payload := c; signature := jws_sign HS256 jwtSecret c |}
  | None => None
  end.

(** Modelled from the spec: the token verifier of passport.js (the JWT
    strategy), which is not among the sources.  Section 4.2: the signature
    is checked against the same secret and the expiry must not have
    passed. *)
Definition verifyToken (now : Z) (tok : token) : bool :=
  bool_decide (signature tok = jws_sign (alg tok) jwtSecret (payload tok))
  && (now <=? exp (payload tok)).

(** Modelled from the spec: the JWT strategy of passport.js.  On success the
    decoded identity is handed on; a missing, malformed, badly signed or
    expired token fails. *)
Definition jwtStrategy (now : Z) (req : request) : option claims :=
  match bearer req with
  | Some tok => if verifyToken now tok then Some (payload tok) else None
  | None => None
  end.

Definition unauthorized : response := res_status 401 (Text "Unauthorized").

(** [passport.authenticate('jwt', { session: false })] in front of a
    handler: the handler runs only when the strategy succeeds. *)
Definition passport_authenticate_jwt (req : request) (handler : M (option response))
  : M (option response) :=
  do now <- get_clock;
  match jwtStrategy now req with
  | Some _ => handler
  | None => ret (Some unauthorized)
  end.

Definition password_matches (password : string) (user : User.t) : bool :=
  match User.Password user with
  | Some hash => validatePassword password hash
  | None => false
  end.

(** Modelled from the spec: the credential validator of passport.js (the
    local strategy), which is not among the sources.  Section 4.1: the user
    is looked up by Username; when it is absent or the password does not
    match the stored hash the log-in fails.  Section 6: the credentials are
    query parameters. *)
Definition localStrategy (req : request) : M auth_result :=
  match query req !! "Username", query req !! "Password" with
  | Some username, Some password =>
      do r <- Users_findOne_ (Some username);
      ret match r with
          | inl error => AuthError error
          | inr None => AuthFail NoSuchUser
          | inr (Some user) =>
              if password_matches password user then AuthOk user
              else AuthFail WrongPassword
          end
  | _, _ => ret (AuthFail MissingCredentials)
  end.

(** [xss(v)]: the filter maps [undefined] to the empty string *)
Definition xss_js (v : option string) : string :=
  match v with Some s => xss s | None => "" end.

(** [router.post('/login', ...)].  When signing throws inside the callback
    no response is sent. *)
Definition login (req : request) : M (option response) :=
  do r <- localStrategy req;
  match r with
  | AuthError _ =>
      ret (Some (res_status 400 (JLoginFailed "Something is not right" user_undefined)))
  | AuthFail _ =>
      ret (Some (res_status 400 (JLoginFailed "Something is not right" user_false)))
  | AuthOk user =>
      do now <- get_clock;
      match generateJWTToken user now with
      | Some token =>
          ret (Some (res_json (JLoginOk token
                 {| lu_Username := xss_js (User.Username user);
                    lu_FavoriteMovies := User.FavoriteMovies user;
                    lu_Email := xss_js (User.Email user);
                    lu_Birthday := xss_js (User.Birthday user) |})))
      | None => ret None
      end
  end.

End Auth.

(** ** index.js *)

(** ['' + v] *)
Definition String_ (v : option string) : string :=
  match v with Some s => s | None => "undefined" end.

(** the engine's message for a property read on [null] *)
Definition null_property_error (prop : string) : string :=
  "TypeError: Cannot read property '" +:+ prop +:+ "' of null".

(** JavaScript truthiness of a request field: a non-empty string *)
Definition truthy (v : option string) : bool :=
  match v with Some s => negb (isEmpty s) | None => false end.

Section Routes.
Context `{Collaborators}.

(** [res.status(500).send('Error: ' + err)] *)
Definition error_500 (err : string) : response := res_status 500 (Text ("Error: " +:+ err)).

(** the application's last middleware, reached when a handler throws *)
Definition something_didnt_work : response := res_status 500 (Text "Something didn't work!").

(** the validation chains of POST /users and PUT /users/:Username, and the
    [validationResult(req).array()] they leave *)
Definition validationResult (req : request) : list verror :=
  check "Username" "Username is required" (isLength 5) req
  ++ check "Username" "Username contains non alphanumeric characters - not allowed." isAlphanumeric req
  ++ check "Password" "Password is required" (λ s, negb (isEmpty s)) req
  ++ check "Email" "Email does not appear to be valid" isEmail req.

Definition errors_isEmpty (errors : list verror) : bool :=
  match errors with [] => true | _ => false end.

Definition hashPassword_js (v : option string) : option string :=
  match v with Some p => Some (hashPassword p) | None => hashPassword_undefined end.

Definition get_movies : M response :=
  do r <- Movies_find_;
  ret match r with
      | inr movies => res_status 201 (JMovies movies)
      | inl err => error_500 err
      end.

Definition get_movie (MovieID : string) : M response :=
  do r <- Movies_findOne_by_id MovieID;
  ret match r with
      | inr movie => res_json (JMovie movie)
      | inl err => error_500 err
      end.

Definition get_movies_by_genre (genre : string) : M response :=
  do r <- Movies_find_by_genre genre;
  ret match r with
      | inr movies => res_json (JMovies movies)
      | inl err => error_500 err
      end.

(** [res.json(movies.Director)] throws on [null]; the [catch] answers *)
Definition get_director (name : string) : M response :=
  do r <- Movies_findOne_by_director name;
  ret match r with
      | inr (Some movies) => res_json (JDirector (Movie.Director movies))
      | inr None => error_500 (null_property_error "Director")
      | inl err => error_500 err
      end.

Definition post_users (req : request) (errors : list verror) : M response :=
  if negb (errors_isEmpty errors) then ret (res_status 422 (JErrors errors))
  else
    match hashPassword_js (body req !! "Password") with
    | None => ret something_didnt_work
    | Some hashedPassword =>
        do r <- Users_findOne_ (body req !! "Username");
        match r with
        | inr (Some user) =>
            ret (res_status 400 (Text (String_ (body req !! "Username") +:+ " already exists")))
        | inr None =>
            do c <- Users_create_ {| set_Username := body req !! "Username";
                                     set_Password := Some hashedPassword;
                                     set_Email := body req !! "Email";
                                     set_Birthday := body req !! "Birthday" |};
            ret match c with
                | inr user =>
                    res_status 201 (JNewUser (User.Username user) (User.Email user) (User.Birthday user))
                | inl error => error_500 error
                end
        | inl error => ret (error_500 error)
        end
    end.

(** the object built field by field before the update *)
Definition build_updateObj (req : request) (hashedPassword : string) : updateObj :=
  {| set_Username := if truthy (body req !! "Username") then body req !! "Username" else None;
     set_Password := if truthy (body req !! "Password") then Some hashedPassword else None;
     set_Email := if truthy (body req !! "Email") then body req !! "Email" else None;
     set_Birthday := if truthy (body req !! "Birthday") then body req !! "Birthday" else None |}.

Definition put_user (Username : string) (req : request) (errors : list verror) : M response :=
  if negb (errors_isEmpty errors) then ret (res_status 422 (JErrors errors))
  else
    match hashPassword_js (body req !! "Password") with
    | None => ret something_didnt_work
    | Some hashedPassword =>
        do r <- Users_findOneAndUpdate_set_ Username (build_updateObj req hashedPassword);
        ret match r with
            | inl err => error_500 err
            | inr updatedUser => res_status 201 (JUser updatedUser)
            end
    end.

Definition post_favorite (Username MovieID : string) : M response :=
  do r <- Users_findOneAndUpdate_push_ Username MovieID;
  ret match r with
      | inl err => error_500 err
      | inr updatedUser => res_json (JUser updatedUser)
      end.

Definition delete_favorite (Username MovieID : string) : M response :=
  do r <- Users_findOneAndUpdate_pull_ Username MovieID;
  ret match r with
      | inl err => error_500 err
      | inr updatedUser => res_json (JUser updatedUser)
      end.

Definition get_favorites (Username : string) : M response :=
  do r <- Users_findOne_ (Some Username);
  ret match r with
      | inr (Some user) => res_status 201 (JFavorites (User.FavoriteMovies user))
      | inr None => error_500 (null_property_error "FavoriteMovies")
      | inl err => error_500 err
      end.

Definition delete_user (Username : string) : M response :=
  do r <- Users_findOneAndRemove_ Username;
  ret match r with
      | inr None => res_status 400 (Text (Username +:+ " was not found"))
      | inr (Some _) => res_status 200 (Text (Username +:+ " was deleted."))
      | inl err => error_500 err
      end.

Definition get_user (Username : string) : M response :=
  do r <- Users_findOne_ (Some Username);
  ret match r with
      | inr user => res_json (JUser user)
      | inl err => error_500 err
      end.

Definition sent (handler : M response) : M (option response) :=
  do r <- handler; ret (Some r).

(** The routing table: each route with its middleware, in the order the
    application mounts them. *)
Definition app (req : request) : M (option response) :=
  match target req with
  | GetMovies => passport_authenticate_jwt req (sent get_movies)
  | GetMovie MovieID => passport_authenticate_jwt req (sent (get_movie MovieID))
  | GetMoviesByGenre genre => passport_authenticate_jwt req (sent (get_movies_by_genre genre))
  | GetDirector name => passport_authenticate_jwt req (sent (get_director name))
  | PostUsers => let errors := validationResult req in sent (post_users req errors)
  | PutUser Username =>
      let errors := validationResult req in
      passport_authenticate_jwt req (sent (put_user Username req errors))
  | PostFavorite Username MovieID =>
      passport_authenticate_jwt req (sent (post_favorite Username MovieID))
  | DeleteFavorite Username MovieID =>
      passport_authenticate_jwt req (sent (delete_favorite Username MovieID))
  | GetFavorites Username => passport_authenticate_jwt req (sent (get_favorites Username))
  | DeleteUser Username => passport_authenticate_jwt req (sent (delete_user Username))
  | GetUser Username => sent (get_user Username)
  | PostLogin => login req
  end.

End Routes.

(** ** A concrete instance, to run the handlers on examples *)

Fixpoint contains_char (c : ascii) (s : string) : bool :=
  match s with
  | EmptyString => false
  | String c' s' => bool_decide (c = c') || contains_char c s'
  end.

(** Stand-ins for the libraries: hashing prefixes the password, an e-mail is
    a string with an at sign, the filter changes nothing, the signature joins
    secret and subject, the store never fails. *)
Definition sample_collaborators : Collaborators := {|
  hashPassword := λ p, "hash:" +:+ p;
  hashPassword_undefined := None;
  validatePassword := λ p h, bool_decide (h = "hash:" +:+ p);
  isEmail := contains_char "@";
  xss := λ s, s;
  jws_sign := λ _ secret c, secret +:+ "." +:+ sub c;
  dbFault := λ _, None;
  newId := λ _, "id-new"
|}.

Definition alice : User.t := {|
  User._id := "id-1";
  User.Username := Some "alice1";
  User.Password := Some "hash:secret123";
  User.Email := Some "alice@example.com";
  User.Birthday := Some "1990-01-01";
  User.FavoriteMovies := ["abc123"]
|}.

Definition vertigo : Movie.t := {|
  Movie._id := "abc123";
  Movie.Title := "Vertigo";
  Movie.Description := "A detective is hired to follow a woman.";
  Movie.Genre := {| Genre.Name := "Thriller"; Genre.Description := "Suspense." |};
  Movie.Director := {| Director.Name := "Alfred Hitchcock"; Director.Bio := "English director.";
                       Director.Birth := "1899"; Director.Death := Some "1980" |};
  Movie.ImagePath := "vertigo.png"
|}.

Definition sample_world : world :=
  {| users := [alice]; movies := [vertigo]; clock := 1000; log := [] |}.

(** the token [alice] was given at time 0 *)
Definition alice_token : token :=
  let c := {| claim_user := alice; sub := "alice1"; iat := 0; exp := seven_days |} in
  {| alg := HS256; payload := c; signature := "your_jwt_secret.alice1" |}.

Definition plain_request (r : route) (tok : option token) : request :=
  {| target := r; body := ∅; query := ∅; headers := ∅; bearer := tok |}.

Definition with_body (b : gmap string string) (req : request) : request :=
  {| target := target req; body := b; query := query req; headers := headers req;
     bearer := bearer req |}.

Definition with_query (q : gmap string string) (req : request) : request :=
  {| target := target req; body := body req; query := q; headers := headers req;
     bearer := bearer req |}.

(** * Properties *)

(** unfolds the monad and the routing down to the store operations *)
Ltac run :=
  unfold app, sent, passport_authenticate_jwt, login, localStrategy,
    post_users, put_user, post_favorite, delete_favorite, get_director,
    Users_findOne_, Users_create_, Users_findOneAndUpdate_set_,
    Users_findOneAndUpdate_push_, Users_findOneAndUpdate_pull_,
    Movies_findOne_by_director, updating, store_op, read, bind, ret, get_clock in *;
  cbn [fst snd clock users movies log logged with_users] in *.

Section Authorization.
Context `{Collaborators}.

Lemma authenticate_jwt_fails (req : request) (handler : M (option response)) (w : world) :
  jwtStrategy (clock w) req = None →
  passport_authenticate_jwt req handler w = (Some unauthorized, w).
Proof. intros Hno. run. by rewrite Hno. Qed.

Lemma authenticate_jwt_passes (req : request) (handler : M (option response)) (w : world) :
  is_Some (jwtStrategy (clock w) req) →
  passport_authenticate_jwt req handler w = handler w.
Proof. intros [c Hc]. run. by rewrite Hc. Qed.

(** C2: on every route other than POST /users, POST /login and
    GET /users/:Username, a request whose bearer token does not verify is
    answered 401 Unauthorized and leaves the world as it was: no store
    operation is recorded and no collection changes, so the handler body
    has not run. *)
Theorem unverified_request_rejected (req : request) (w : world) :
  target req ≠ PostUsers →
  target req ≠ PostLogin →
  (∀ u, target req ≠ GetUser u) →
  jwtStrategy (clock w) req = None →
  app req w = (Some (res_status 401 (Text "Unauthorized")), w).
Proof.
  intros Hreg Hlogin Hget Hno.
  unfold app.
  destruct (target req) eqn:Ht; try congruence;
    by apply authenticate_jwt_fails.
Qed.

Lemma verifyToken_spec (now : Z) (tok : token) :
  verifyToken now tok = true ↔
  signature tok = jws_sign (alg tok) jwtSecret (payload tok) ∧ now ≤ exp (payload tok).
Proof.
  unfold verifyToken. rewrite andb_true_iff, bool_decide_eq_true, Z.leb_le. done.
Qed.

(** C3: a token issued at time T for a user named u has subject u, is signed
    with HS256 under the server's secret and expires at T + 7 days; a
    protected route lets a request carrying it through to its handler at
    any time up to T + 7 days, and answers 401 after T + 7 days, or at any
    time when the signature has been replaced by another one. *)
Theorem token_lifecycle (user : User.t) (u : string) (T : Z) :
  User.Username user = Some u →
  ∃ tok,
    generateJWTToken user T = Some tok
    ∧ sub (payload tok) = u
    ∧ alg tok = HS256
    ∧ signature tok = jws_sign HS256 "your_jwt_secret" (payload tok)
    ∧ exp (payload tok) = T + 7 * 86400
    ∧ (∀ req handler w,
         bearer req = Some tok → clock w ≤ T + 7 * 86400 →
         passport_authenticate_jwt req handler w = handler w)
    ∧ (∀ req handler w,
         bearer req = Some tok → T + 7 * 86400 < clock w →
         passport_authenticate_jwt req handler w = (Some unauthorized, w))
    ∧ (∀ req handler w forged,
         forged ≠ signature tok →
         bearer req = Some {| alg := alg tok; payload := payload tok; signature := forged |} →
         passport_authenticate_jwt req handler w = (Some unauthorized, w)).
Proof.
  intros Hu. unfold generateJWTToken. rewrite Hu.
  eexists. split; [reflexivity|]. cbn [sub alg payload signature exp].
  repeat split; try reflexivity.
  - intros req handler w Hb Ht. apply authenticate_jwt_passes.
    unfold jwtStrategy. rewrite Hb.
    assert (Hv : verifyToken (clock w)
      {| alg := HS256;
         payload := {| claim_user := user; sub := u; iat := T; exp := T + seven_days |};
         signature := jws_sign HS256 jwtSecret
           {| claim_user := user; sub := u; iat := T; exp := T + seven_days |} |} = true).
    { apply verifyToken_spec. cbn. unfold seven_days. split; [done | lia]. }
    rewrite Hv. eauto.
  - intros req handler w Hb Ht. apply authenticate_jwt_fails.
    unfold jwtStrategy. rewrite Hb.
    destruct (verifyToken _ _) eqn:Hv; [|done].
    apply verifyToken_spec in Hv as [_ Hexp]. cbn in Hexp. unfold seven_days in Hexp. lia.
  - intros req handler w forged Hne Hb. apply authenticate_jwt_fails.
    unfold jwtStrategy. rewrite Hb.
    destruct (verifyToken _ _) eqn:Hv; [|done].
    apply verifyToken_spec in Hv as [Hsig _]. cbn in Hsig. congruence.
Qed.

End Authorization.

Section Login.
Context `{Collaborators}.

(** C8: a log-in that fails because no user has the supplied Username, or
    because the supplied Password does not match the stored hash, gets one
    and the same answer in both cases: status 400 with the message
    "Something is not right" and [user: false]; the answer carries no
    token, and the store has only been read. *)
Theorem login_failure_uniform (req : request) (w : world) (username password : string) :
  target req = PostLogin →
  query req !! "Username" = Some username →
  query req !! "Password" = Some password →
  dbFault (Users_findOne (Some username)) = None →
  (List.find (by_Username (Some username)) (users w) = None
   ∨ ∃ user, List.find (by_Username (Some username)) (users w) = Some user
             ∧ password_matches password user = false) →
  app req w = (Some (res_status 400 (JLoginFailed "Something is not right" user_false)),
               logged (Users_findOne (Some username)) w).
Proof.
  intros Ht Hu Hp Hdb Hfail. run. rewrite Ht, Hu, Hp, Hdb.
  destruct Hfail as [Hnone | (user & Hsome & Hpw)].
  - by rewrite Hnone.
  - by rewrite Hsome, Hpw.
Qed.

(** C9: whenever a log-in succeeds (status 200), the answer carries a token
    whose claims hold the whole user document found in the store under the
    supplied Username, the stored Password hash included. *)
Theorem login_token_carries_record (req : request) (w w' : world) (r : response) :
  target req = PostLogin →
  app req w = (Some r, w') →
  status r = 200 →
  ∃ tok lu username user,
    content r = JLoginOk tok lu
    ∧ query req !! "Username" = Some username
    ∧ List.find (by_Username (Some username)) (users w) = Some user
    ∧ claim_user (payload tok) = user
    ∧ User.Password (claim_user (payload tok)) = User.Password user.
Proof.
  intros Ht Happ Hst. run. rewrite Ht in Happ.
  destruct (query req !! "Username") as [username|] eqn:Hu;
    [destruct (query req !! "Password") as [password|] eqn:Hp|];
    [| by simplify_eq; cbn in Hst; lia ..].
  destruct (dbFault (Users_findOne (Some username)));
    [by simplify_eq; cbn in Hst; lia|].
  destruct (List.find _ _) as [user|] eqn:Hfind;
    [| by simplify_eq; cbn in Hst; lia].
  destruct (password_matches password user);
    [| by simplify_eq; cbn in Hst; lia].
  unfold generateJWTToken in Happ.
  destruct (User.Username user) as [subject|]; [| by simplify_eq].
  simplify_eq. cbn. eauto 10.
Qed.

End Login.

Section Favorites.
Context `{Collaborators}.

Lemma update_first_none (p : User.t → bool) (f : User.t → User.t) (l : list User.t) :
  List.find p l = None → update_first p f l = (None, l).
Proof.
  induction l as [|d l IH]; cbn; [done|].
  destruct (p d); [done|]. intros Hl. by rewrite (IH Hl).
Qed.

Lemma update_first_fixed (p : User.t → bool) (f : User.t → User.t) (l : list User.t) (d : User.t) :
  List.find p l = Some d → f d = d → update_first p f l = (Some d, l).
Proof.
  induction l as [|d' l IH]; cbn; [done|].
  destruct (p d').
  - intros [= ->] ->. done.
  - intros Hl Hf. by rewrite (IH Hl Hf).
Qed.

Lemma filter_absent (m : string) (l : list string) :
  m ∉ l → List.filter (λ x, negb (bool_decide (x = m))) l = l.
Proof.
  induction l as [|x l IH]; cbn; [done|].
  intros Hm. apply not_elem_of_cons in Hm as [Hne Hl].
  rewrite bool_decide_eq_false_2 by congruence. cbn. by rewrite IH.
Qed.

Lemma apply_pull_absent (m : string) (d : User.t) :
  m ∉ User.FavoriteMovies d → apply_pull m d = d.
Proof.
  intros Hm. unfold apply_pull. rewrite filter_absent by done. by destruct d.
Qed.

(** C7: DELETE /users/:Username/movies/:MovieID by a verified client, for an
    existing user whose FavoriteMovies does not hold the identifier, answers
    200 with the user document as it was, and the users collection is left
    unchanged (only the operation is recorded). *)
Theorem remove_absent_favorite_noop (req : request) (w : world) (u m : string) (user : User.t) :
  target req = DeleteFavorite u m →
  is_Some (jwtStrategy (clock w) req) →
  dbFault (Users_findOneAndUpdate_pull u m) = None →
  List.find (by_Username (Some u)) (users w) = Some user →
  m ∉ User.FavoriteMovies user →
  app req w = (Some (res_json (JUser (Some user))), logged (Users_findOneAndUpdate_pull u m) w).
Proof.
  intros Ht Hauth Hdb Hfind Hm.
  unfold app. rewrite Ht, authenticate_jwt_passes by done. run. rewrite Hdb.
  rewrite (update_first_fixed _ _ _ user) by (done || by apply apply_pull_absent).
  done.
Qed.

(** C10: adding or removing a favourite for a Username that matches no user
    document does not fail: a verified request is answered 200 with the
    [null] record, and the users collection is left unchanged. *)
Theorem favorite_of_unknown_user (req : request) (w : world) (u m : string) :
  (target req = PostFavorite u m ∧ dbFault (Users_findOneAndUpdate_push u m) = None)
  ∨ (target req = DeleteFavorite u m ∧ dbFault (Users_findOneAndUpdate_pull u m) = None) →
  is_Some (jwtStrategy (clock w) req) →
  List.find (by_Username (Some u)) (users w) = None →
  fst (app req w) = Some (res_json (JUser None))
  ∧ status (res_json (JUser None)) = 200
  ∧ users (snd (app req w)) = users w.
Proof.
  intros [[Ht Hdb] | [Ht Hdb]] Hauth Hfind;
    unfold app; rewrite Ht, authenticate_jwt_passes by done; run; rewrite Hdb;
    rewrite update_first_none by done; done.
Qed.

(** C6, as the code behaves: GET /directors/:name by a verified client, when
    no movie has a director of that name, is answered with status 500 and
    the text of the TypeError raised by reading [Director] of [null]. *)
Theorem director_not_found_is_error (req : request) (w : world) (name : string) :
  target req = GetDirector name →
  is_Some (jwtStrategy (clock w) req) →
  dbFault (Movies_findOne_director name) = None →
  List.find (λ m, bool_decide (Director.Name (Movie.Director m) = name)) (movies w) = None →
  app req w = (Some (res_status 500
                 (Text "Error: TypeError: Cannot read property 'Director' of null")),
               logged (Movies_findOne_director name) w).
Proof.
  intros Ht Hauth Hdb Hfind.
  unfold app. rewrite Ht, authenticate_jwt_passes by done. run. by rewrite Hdb, Hfind.
Qed.

End Favorites.

Section Validation.
Context `{Collaborators}.

(** a value the body supplies is always among the instances checked *)
Lemma body_instance (req : request) (f v : string) :
  body req !! f = Some v →
  {| fi_location := Lbody; fi_value := Some v |} ∈ field_instances req f.
Proof.
  intros Hb. unfold field_instances, check_locations.
  cbn [map List.filter]. unfold has_value at 1. cbn [fi_value req_lookup].
  rewrite Hb. apply list_elem_of_here.
Qed.

(** a field found nowhere in the request is checked once, as [undefined] *)
Lemma absent_instance (req : request) (f : string) :
  (∀ loc, req_lookup req loc f = None) →
  field_instances req f = [{| fi_location := Lbody; fi_value := None |}].
Proof.
  intros Habs. unfold field_instances, check_locations.
  cbn [map List.filter]. unfold has_value. cbn [fi_value].
  by rewrite !Habs.
Qed.

Lemma check_reports (req : request) (f message : string) (validator : string → bool)
      (i : field_instance) :
  i ∈ field_instances req f →
  validator (toString (fi_value i)) = false →
  message ∈ msg <$> check f message validator req.
Proof.
  intros Hi Hv. apply list_elem_of_fmap.
  exists {| value := fi_value i; msg := message; param := f; err_location := fi_location i |}.
  split; [done|]. unfold check. apply list_elem_of_omap.
  exists i. by rewrite Hv.
Qed.

Lemma check_passes (req : request) (f message : string) (validator : string → bool)
      (i : field_instance) :
  check f message validator req = [] →
  i ∈ field_instances req f →
  validator (toString (fi_value i)) = true.
Proof.
  intros Hnil Hi. destruct (validator _) eqn:Hv; [done|].
  pose proof (check_reports req f message validator i Hi Hv) as Hin.
  rewrite Hnil in Hin. by apply elem_of_nil in Hin.
Qed.

Lemma reported (message : string) (errors : list verror) :
  message ∈ msg <$> errors → errors ≠ [].
Proof. intros Hin ->. by apply elem_of_nil in Hin. Qed.

Lemma rejected_422 (req : request) (w : world) :
  validationResult req ≠ [] →
  post_users req (validationResult req) w
  = (res_status 422 (JErrors (validationResult req)), w).
Proof.
  intros Hne. unfold post_users. by destruct (validationResult req).
Qed.

Lemma isLength_short (n : nat) (v : string) :
  (String.length v < n)%nat → isLength n v = false.
Proof. intros Hlt. unfold isLength. apply Nat.leb_gt. lia. Qed.

Lemma isAlphanumeric_other (v : string) :
  all_chars alnum_char v = false → isAlphanumeric v = false.
Proof. intros Hc. unfold isAlphanumeric. rewrite Hc. apply andb_false_r. Qed.

(** the messages of [validationResult], chain by chain *)
Lemma message_of_chain (req : request) (message : string) :
  message ∈ msg <$> check "Username" "Username is required" (isLength 5) req
  ∨ message ∈ msg <$> check "Username"
                "Username contains non alphanumeric characters - not allowed."
                isAlphanumeric req
  ∨ message ∈ msg <$> check "Password" "Password is required" (λ s, negb (isEmpty s)) req
  ∨ message ∈ msg <$> check "Email" "Email does not appear to be valid" isEmail req →
  message ∈ msg <$> validationResult req.
Proof.
  unfold validationResult. rewrite !fmap_app, !elem_of_app. tauto.
Qed.

(** C4: a registration whose body carries a Username shorter than five
    characters, a Username with a character that is neither a letter nor a
    digit, an empty Password (or no Password anywhere in the request), or an
    Email that is not a valid address, is answered 422 with the errors of
    all four validation chains; the message of every rule the body breaks
    is in that list; and the world is left as it was, no store operation
    being recorded. *)
Theorem invalid_registration_rejected (req : request) (w : world) :
  target req = PostUsers →
  (∃ v, body req !! "Username" = Some v ∧ (String.length v < 5)%nat)
  ∨ (∃ v, body req !! "Username" = Some v ∧ all_chars alnum_char v = false)
  ∨ (body req !! "Password" = Some "" ∨ ∀ loc, req_lookup req loc "Password" = None)
  ∨ (∃ v, body req !! "Email" = Some v ∧ isEmail v = false) →
  app req w = (Some (res_status 422 (JErrors (validationResult req))), w)
  ∧ (∀ v, body req !! "Username" = Some v → (String.length v < 5)%nat →
       "Username is required" ∈ msg <$> validationResult req)
  ∧ (∀ v, body req !! "Username" = Some v → all_chars alnum_char v = false →
       "Username contains non alphanumeric characters - not allowed."
         ∈ msg <$> validationResult req)
  ∧ (body req !! "Password" = Some "" ∨ (∀ loc, req_lookup req loc "Password" = None) →
       "Password is required" ∈ msg <$> validationResult req)
  ∧ (∀ v, body req !! "Email" = Some v → isEmail v = false →
       "Email does not appear to be valid" ∈ msg <$> validationResult req).
Proof.
  intros Ht Hbad.
  assert (Hlen : ∀ v, body req !! "Username" = Some v → (String.length v < 5)%nat →
            "Username is required" ∈ msg <$> validationResult req).
  { intros v Hb Hlt. apply message_of_chain. left.
    eapply check_reports; [by apply body_instance|]. by apply isLength_short. }
  assert (Halnum : ∀ v, body req !! "Username" = Some v → all_chars alnum_char v = false →
            "Username contains non alphanumeric characters - not allowed."
              ∈ msg <$> validationResult req).
  { intros v Hb Hc. apply message_of_chain. right; left.
    eapply check_reports; [by apply body_instance|]. by apply isAlphanumeric_other. }
  assert (Hpw : body req !! "Password" = Some "" ∨ (∀ loc, req_lookup req loc "Password" = None) →
            "Password is required" ∈ msg <$> validationResult req).
  { intros [Hb | Habs]; apply message_of_chain; right; right; left.
    - eapply check_reports; [by apply body_instance|]. done.
    - eapply (check_reports _ _ _ _ {| fi_location := Lbody; fi_value := None |}).
      + rewrite absent_instance by done. apply list_elem_of_here.
      + done. }
  assert (Hemail : ∀ v, body req !! "Email" = Some v → isEmail v = false →
            "Email does not appear to be valid" ∈ msg <$> validationResult req).
  { intros v Hb He. apply message_of_chain. right; right; right.
    eapply check_reports; [by apply body_instance|]. done. }
  split; [|done].
  assert (Hne : validationResult req ≠ []).
  { destruct Hbad as [(v & Hb & Hv) | [(v & Hb & Hv) | [Hp | (v & Hb & Hv)]]];
      eapply reported; eauto. }
  unfold app. rewrite Ht. cbn zeta. unfold sent, bind, ret.
  by rewrite rejected_422.
Qed.

End Validation.

Section Accounts.
Context `{Collaborators}.

Lemma update_first_found (p : User.t → bool) (f : User.t → User.t) (l : list User.t) (d : User.t) :
  List.find p l = Some d →
  ∃ l', update_first p f l = (Some (f d), l') ∧ f d ∈ l'.
Proof.
  induction l as [|d' l IH]; cbn; [done|].
  destruct (p d').
  - intros [= ->]. eexists. split; [done|]. apply list_elem_of_here.
  - intros Hl. destruct (IH Hl) as (l' & -> & Hin).
    eexists. split; [done|]. by apply list_elem_of_further.
Qed.

(** C5: a registration whose Username is already in the store never changes
    the users collection; when the request passes validation and carries a
    Password, and the store answers the lookup, the response is 400 with the
    text "<Username> already exists", and the lookup is the only store
    operation recorded (no create, no update). *)
Theorem duplicate_registration_rejected (req : request) (w : world) (u : string)
        (existing : User.t) :
  target req = PostUsers →
  body req !! "Username" = Some u →
  List.find (by_Username (Some u)) (users w) = Some existing →
  users (snd (app req w)) = users w
  ∧ (validationResult req = [] →
     is_Some (body req !! "Password") →
     dbFault (Users_findOne (Some u)) = None →
     app req w = (Some (res_status 400 (Text (u +:+ " already exists"))),
                  logged (Users_findOne (Some u)) w)).
Proof.
  intros Ht Hu Hfind. unfold app. rewrite Ht. cbn zeta. split.
  - run. rewrite Hu. destruct (errors_isEmpty _); cbn; [|done].
    destruct (hashPassword_js _); cbn; [|done].
    destruct (dbFault _); cbn; [done|]. by rewrite Hfind.
  - intros Hvalid [p Hp] Hdb. run. rewrite Hvalid, Hu, Hp. cbn.
    by rewrite Hdb, Hfind.
Qed.

Lemma valid_username_truthy (req : request) (v : string) :
  validationResult req = [] → body req !! "Username" = Some v → truthy (Some v) = true.
Proof.
  intros Hvalid Hb. unfold validationResult in Hvalid.
  apply app_eq_nil in Hvalid as [Hlen _].
  pose proof (check_passes _ _ _ _ _ Hlen (body_instance _ _ _ Hb)) as Hok.
  cbn in Hok. by destruct v.
Qed.

Lemma valid_password_truthy (req : request) (v : string) :
  validationResult req = [] → body req !! "Password" = Some v → truthy (Some v) = true.
Proof.
  intros Hvalid Hb. unfold validationResult in Hvalid.
  apply app_eq_nil in Hvalid as [_ Hvalid].
  apply app_eq_nil in Hvalid as [_ Hvalid].
  apply app_eq_nil in Hvalid as [Hpw _].
  by pose proof (check_passes _ _ _ _ _ Hpw (body_instance _ _ _ Hb)) as Hok.
Qed.

(** C1, amended: a verified PUT /users/:Username request is answered 422,
    with the world left as it was, whenever a validation chain reports an
    error; when every chain passes, the body carries a Password, the store
    accepts the update and a user of that Username exists, it is answered
    201 with the updated document, which is in the store and differs from
    the stored one only in this: Username, Email and Birthday are replaced
    by the body's value when the body has a non-empty one, and Password by
    the hash of the body's Password. *)
Theorem put_user_partial_update (req : request) (w : world) (u p : string) (user : User.t) :
  target req = PutUser u →
  is_Some (jwtStrategy (clock w) req) →
  (validationResult req ≠ [] →
   app req w = (Some (res_status 422 (JErrors (validationResult req))), w))
  ∧ (validationResult req = [] →
     body req !! "Password" = Some p →
     dbFault (Users_findOneAndUpdate_set u (build_updateObj req (hashPassword p))) = None →
     List.find (by_Username (Some u)) (users w) = Some user →
     ∃ updated w',
       app req w = (Some (res_status 201 (JUser (Some updated))), w')
       ∧ updated ∈ users w'
       ∧ User._id updated = User._id user
       ∧ User.FavoriteMovies updated = User.FavoriteMovies user
       ∧ User.Username updated = or_else (body req !! "Username") (User.Username user)
       ∧ User.Password updated = Some (hashPassword p)
       ∧ User.Email updated
         = (if truthy (body req !! "Email") then body req !! "Email" else User.Email user)
       ∧ User.Birthday updated
         = (if truthy (body req !! "Birthday") then body req !! "Birthday"
            else User.Birthday user)).
Proof.
  intros Ht Hauth. unfold app. rewrite Ht. cbn zeta. rewrite authenticate_jwt_passes by done. split.
  - intros Hne. run. by destruct (validationResult req).
  - intros Hvalid Hp Hdb Hfind. run. rewrite Hvalid, Hp. cbn. rewrite Hdb.
    destruct (update_first_found _ (apply_set (build_updateObj req (hashPassword p))) _ _ Hfind)
      as (l' & -> & Hin).
    eexists _, _. split; [reflexivity|]. cbn.
    split; [done|]. do 2 (split; [done|]).
    rewrite Hp, (valid_password_truthy req p) by done.
    repeat split.
    + destruct (body req !! "Username") as [v|] eqn:Hb; [|done].
      by rewrite (valid_username_truthy req v).
    + by destruct (body req !! "Email") as [[|c s]|].
    + by destruct (body req !! "Birthday") as [[|c s]|].
Qed.

End Accounts.

(** * The properties on concrete requests *)

Definition alice_bearer (r : route) : request := plain_request r (Some alice_token).

Lemma alice_verified (r : route) :
  is_Some (@jwtStrategy sample_collaborators (clock sample_world) (alice_bearer r)).
Proof. exists (payload alice_token). reflexivity. Defined.

Lemma unverified_request_rejected_witness :
  target (plain_request GetMovies None) ≠ PostUsers
  ∧ target (plain_request GetMovies None) ≠ PostLogin
  ∧ (∀ u, target (plain_request GetMovies None) ≠ GetUser u)
  ∧ @jwtStrategy sample_collaborators (clock sample_world) (plain_request GetMovies None) = None
  ∧ @app sample_collaborators (plain_request GetMovies None) sample_world
    = (Some (res_status 401 (Text "Unauthorized")), sample_world).
Proof.
  assert (H1 : target (plain_request GetMovies None) ≠ PostUsers) by discriminate.
  assert (H2 : target (plain_request GetMovies None) ≠ PostLogin) by discriminate.
  assert (H3 : ∀ u, target (plain_request GetMovies None) ≠ GetUser u) by discriminate.
  assert (H4 : @jwtStrategy sample_collaborators (clock sample_world)
                 (plain_request GetMovies None) = None) by reflexivity.
  do 4 (split; [assumption|]).
  exact (@unverified_request_rejected sample_collaborators _ _ H1 H2 H3 H4).
Defined.

Lemma token_lifecycle_witness :
  User.Username alice = Some "alice1"
  ∧ ∃ tok,
      @generateJWTToken sample_collaborators alice 0 = Some tok
      ∧ sub (payload tok) = "alice1"
      ∧ alg tok = HS256
      ∧ signature tok = @jws_sign sample_collaborators HS256 "your_jwt_secret" (payload tok)
      ∧ exp (payload tok) = 0 + 7 * 86400
      ∧ (∀ req handler w,
           bearer req = Some tok → clock w ≤ 0 + 7 * 86400 →
           @passport_authenticate_jwt sample_collaborators req handler w = handler w)
      ∧ (∀ req handler w,
           bearer req = Some tok → 0 + 7 * 86400 < clock w →
           @passport_authenticate_jwt sample_collaborators req handler w
           = (Some unauthorized, w))
      ∧ (∀ req handler w forged,
           forged ≠ signature tok →
           bearer req = Some {| alg := alg tok; payload := payload tok; signature := forged |} →
           @passport_authenticate_jwt sample_collaborators req handler w
           = (Some unauthorized, w)).
Proof.
  split; [reflexivity|].
  exact (@token_lifecycle sample_collaborators alice "alice1" 0 eq_refl).
Defined.

Definition wrong_password_login : request :=
  with_query (<[ "Password" := "wrong" ]> {[ "Username" := "alice1" ]})
    (plain_request PostLogin None).

Lemma login_failure_uniform_witness :
  target wrong_password_login = PostLogin
  ∧ query wrong_password_login !! "Username" = Some "alice1"
  ∧ query wrong_password_login !! "Password" = Some "wrong"
  ∧ @dbFault sample_collaborators (Users_findOne (Some "alice1")) = None
  ∧ (List.find (by_Username (Some "alice1")) (users sample_world) = Some alice
     ∧ @password_matches sample_collaborators "wrong" alice = false)
  ∧ @app sample_collaborators wrong_password_login sample_world
    = (Some (res_status 400 (JLoginFailed "Something is not right" user_false)),
       logged (Users_findOne (Some "alice1")) sample_world).
Proof.
  assert (Hf : List.find (by_Username (Some "alice1")) (users sample_world) = Some alice
               ∧ @password_matches sample_collaborators "wrong" alice = false)
    by (split; reflexivity).
  do 4 (split; [reflexivity|]). split; [exact Hf|].
  apply (@login_failure_uniform sample_collaborators wrong_password_login sample_world
           "alice1" "wrong" eq_refl eq_refl eq_refl eq_refl).
  right. exists alice. exact Hf.
Defined.

Definition alice_login : request :=
  with_query (<[ "Password" := "secret123" ]> {[ "Username" := "alice1" ]})
    (plain_request PostLogin None).

Definition alice_login_response : response :=
  let c := {| claim_user := alice; sub := "alice1"; iat := 1000; exp := 1000 + seven_days |} in
  res_json (JLoginOk
    {| alg := HS256; payload := c; signature := "your_jwt_secret.alice1" |}
    {| lu_Username := "alice1"; lu_FavoriteMovies := ["abc123"];
       lu_Email := "alice@example.com"; lu_Birthday := "1990-01-01" |}).

Lemma login_token_carries_record_witness :
  target alice_login = PostLogin
  ∧ @app sample_collaborators alice_login sample_world
    = (Some alice_login_response, logged (Users_findOne (Some "alice1")) sample_world)
  ∧ status alice_login_response = 200
  ∧ ∃ tok lu username user,
      content alice_login_response = JLoginOk tok lu
      ∧ query alice_login !! "Username" = Some username
      ∧ List.find (by_Username (Some username)) (users sample_world) = Some user
      ∧ claim_user (payload tok) = user
      ∧ User.Password (claim_user (payload tok)) = User.Password user.
Proof.
  assert (Happ : @app sample_collaborators alice_login sample_world
                 = (Some alice_login_response,
                    logged (Users_findOne (Some "alice1")) sample_world)) by reflexivity.
  split; [reflexivity|]. split; [exact Happ|]. split; [reflexivity|].
  exact (@login_token_carries_record sample_collaborators alice_login sample_world _
           alice_login_response eq_refl Happ eq_refl).
Defined.

Lemma remove_absent_favorite_noop_witness :
  target (alice_bearer (DeleteFavorite "alice1" "zzz999")) = DeleteFavorite "alice1" "zzz999"
  ∧ is_Some (@jwtStrategy sample_collaborators (clock sample_world)
               (alice_bearer (DeleteFavorite "alice1" "zzz999")))
  ∧ @dbFault sample_collaborators (Users_findOneAndUpdate_pull "alice1" "zzz999") = None
  ∧ List.find (by_Username (Some "alice1")) (users sample_world) = Some alice
  ∧ ("zzz999" ∉ User.FavoriteMovies alice)
  ∧ @app sample_collaborators (alice_bearer (DeleteFavorite "alice1" "zzz999")) sample_world
    = (Some (res_json (JUser (Some alice))),
       logged (Users_findOneAndUpdate_pull "alice1" "zzz999") sample_world).
Proof.
  assert (Hm : "zzz999" ∉ User.FavoriteMovies alice).
  { apply not_elem_of_cons. split; [discriminate | apply not_elem_of_nil]. }
  split; [reflexivity|]. split; [apply alice_verified|].
  do 2 (split; [reflexivity|]). split; [exact Hm|].
  exact (@remove_absent_favorite_noop sample_collaborators
           (alice_bearer (DeleteFavorite "alice1" "zzz999")) sample_world "alice1" "zzz999"
           alice eq_refl (alice_verified _) eq_refl eq_refl Hm).
Defined.

Lemma favorite_of_unknown_user_witness :
  target (alice_bearer (PostFavorite "nobody" "abc123")) = PostFavorite "nobody" "abc123"
  ∧ is_Some (@jwtStrategy sample_collaborators (clock sample_world)
               (alice_bearer (PostFavorite "nobody" "abc123")))
  ∧ @dbFault sample_collaborators (Users_findOneAndUpdate_push "nobody" "abc123") = None
  ∧ List.find (by_Username (Some "nobody")) (users sample_world) = None
  ∧ fst (@app sample_collaborators (alice_bearer (PostFavorite "nobody" "abc123")) sample_world)
    = Some (res_json (JUser None))
  ∧ status (res_json (JUser None)) = 200
  ∧ users (snd (@app sample_collaborators (alice_bearer (PostFavorite "nobody" "abc123"))
                  sample_world))
    = users sample_world.
Proof.
  split; [reflexivity|]. split; [apply alice_verified|].
  do 2 (split; [reflexivity|]).
  apply (@favorite_of_unknown_user sample_collaborators
           (alice_bearer (PostFavorite "nobody" "abc123")) sample_world "nobody" "abc123").
  - left. split; reflexivity.
  - apply alice_verified.
  - reflexivity.
Defined.

Lemma director_not_found_is_error_witness :
  target (alice_bearer (GetDirector "Nobody")) = GetDirector "Nobody"
  ∧ is_Some (@jwtStrategy sample_collaborators (clock sample_world)
               (alice_bearer (GetDirector "Nobody")))
  ∧ @dbFault sample_collaborators (Movies_findOne_director "Nobody") = None
  ∧ List.find (λ m, bool_decide (Director.Name (Movie.Director m) = "Nobody"))
      (movies sample_world) = None
  ∧ @app sample_collaborators (alice_bearer (GetDirector "Nobody")) sample_world
    = (Some (res_status 500
         (Text "Error: TypeError: Cannot read property 'Director' of null")),
       logged (Movies_findOne_director "Nobody") sample_world).
Proof.
  split; [reflexivity|]. split; [apply alice_verified|].
  do 2 (split; [reflexivity|]).
  exact (@director_not_found_is_error sample_collaborators
           (alice_bearer (GetDirector "Nobody")) sample_world "Nobody"
           eq_refl (alice_verified _) eq_refl eq_refl).
Defined.

Definition bad_registration : request :=
  with_body (<[ "Username" := "al!" ]> (<[ "Password" := "" ]> {[ "Email" := "nowhere" ]}))
    (plain_request PostUsers None).

Lemma invalid_registration_rejected_witness :
  target bad_registration = PostUsers
  ∧ (body bad_registration !! "Username" = Some "al!" ∧ (String.length "al!" < 5)%nat)
  ∧ @app sample_collaborators bad_registration sample_world
    = (Some (res_status 422 (JErrors (@validationResult sample_collaborators bad_registration))),
       sample_world)
  ∧ msg <$> @validationResult sample_collaborators bad_registration
    = ["Username is required";
       "Username contains non alphanumeric characters - not allowed.";
       "Password is required";
       "Email does not appear to be valid"].
Proof.
  assert (Hu : body bad_registration !! "Username" = Some "al!"
               ∧ (String.length "al!" < 5)%nat) by (split; [reflexivity | cbn; lia]).
  split; [reflexivity|]. split; [exact Hu|]. split; [|reflexivity].
  apply (@invalid_registration_rejected sample_collaborators bad_registration sample_world
           eq_refl).
  left. exists "al!". exact Hu.
Defined.

Definition second_registration : request :=
  with_body (<[ "Username" := "alice1" ]> (<[ "Password" := "other" ]>
               {[ "Email" := "other@example.com" ]}))
    (plain_request PostUsers None).

Lemma duplicate_registration_rejected_witness :
  target second_registration = PostUsers
  ∧ body second_registration !! "Username" = Some "alice1"
  ∧ List.find (by_Username (Some "alice1")) (users sample_world) = Some alice
  ∧ @validationResult sample_collaborators second_registration = []
  ∧ users (snd (@app sample_collaborators second_registration sample_world))
    = users sample_world
  ∧ @app sample_collaborators second_registration sample_world
    = (Some (res_status 400 (Text "alice1 already exists")),
       logged (Users_findOne (Some "alice1")) sample_world).
Proof.
  do 4 (split; [reflexivity|]).
  destruct (@duplicate_registration_rejected sample_collaborators second_registration
              sample_world "alice1" alice eq_refl eq_refl eq_refl) as [Hkept Hdup].
  split; [exact Hkept|].
  apply Hdup; [reflexivity | by exists "other" | reflexivity].
Defined.

(** a body with the Password and Email the validators demand, and nothing
    else: the Username checked is the one of the path *)
Definition change_email : request :=
  with_body (<[ "Password" := "secret123" ]> {[ "Email" := "new@example.com" ]})
    (alice_bearer (PutUser "alice1")).

Lemma put_user_partial_update_witness :
  target change_email = PutUser "alice1"
  ∧ is_Some (@jwtStrategy sample_collaborators (clock sample_world) change_email)
  ∧ @validationResult sample_collaborators change_email = []
  ∧ body change_email !! "Password" = Some "secret123"
  ∧ List.find (by_Username (Some "alice1")) (users sample_world) = Some alice
  ∧ ∃ updated w',
      @app sample_collaborators change_email sample_world
      = (Some (res_status 201 (JUser (Some updated))), w')
      ∧ updated ∈ users w'
      ∧ User._id updated = User._id alice
      ∧ User.FavoriteMovies updated = User.FavoriteMovies alice
      ∧ User.Username updated = or_else (body change_email !! "Username") (User.Username alice)
      ∧ User.Password updated = Some (@hashPassword sample_collaborators "secret123")
      ∧ User.Email updated
        = (if truthy (body change_email !! "Email") then body change_email !! "Email"
           else User.Email alice)
      ∧ User.Birthday updated
        = (if truthy (body change_email !! "Birthday") then body change_email !! "Birthday"
           else User.Birthday alice).
Proof.
  assert (Hauth : is_Some (@jwtStrategy sample_collaborators (clock sample_world)
                             change_email))
    by (exists (payload alice_token); reflexivity).
  split; [reflexivity|]. split; [exact Hauth|]. do 3 (split; [reflexivity|]).
  destruct (@put_user_partial_update sample_collaborators change_email sample_world
              "alice1" "secret123" alice eq_refl Hauth) as [_ Hok].
  apply Hok; reflexivity.
Defined.

(** a body that supplies only a new Email *)
Definition email_only : request :=
  with_body {[ "Email" := "new@example.com" ]} (alice_bearer (PutUser "alice1")).

Example email_only_refused :
  @app sample_collaborators email_only sample_world
  = (Some (res_status 422
       (JErrors [{| value := None; msg := "Password is required"; param := "Password";
                    err_location := Lbody |}])),
     sample_world).
Proof. reflexivity. Qed.

(** C1, as stated, does not hold: a verified PUT whose body is a subset of
    the four fields, each supplied field valid, for an existing user and a
    store that accepts every operation, need not be answered 201.  The body
    holding only a valid Email is answered 422, "Password is required". *)
Lemma put_user_subset_refused :
  ¬ (∀ (C : Collaborators) (req : request) (w : world) (u : string) (user : User.t),
       target req = PutUser u →
       is_Some (jwtStrategy (clock w) req) →
       (∀ f, is_Some (body req !! f) → f ∈ ["Username"; "Password"; "Email"; "Birthday"]) →
       (∀ v, body req !! "Username" = Some v → isLength 5 v = true ∧ isAlphanumeric v = true) →
       (∀ v, body req !! "Password" = Some v → isEmpty v = false) →
       (∀ v, body req !! "Email" = Some v → isEmail v = true) →
       (∀ op, dbFault op = None) →
       List.find (by_Username (Some u)) (users w) = Some user →
       ∃ r w', app req w = (Some r, w') ∧ status r = 201).
Proof.
  intros Hall.
  destruct (Hall sample_collaborators email_only sample_world "alice1" alice)
    as (r & w' & Happ & Hst).
  - reflexivity.
  - exists (payload alice_token). reflexivity.
  - intros f [v Hv]. cbn in Hv. apply lookup_singleton_Some in Hv as [<- _].
    do 2 apply list_elem_of_further. apply list_elem_of_here.
  - intros v Hv. cbn in Hv. by apply lookup_singleton_Some in Hv as [? _].
  - intros v Hv. cbn in Hv. by apply lookup_singleton_Some in Hv as [? _].
  - intros v Hv. cbn in Hv. by apply lookup_singleton_Some in Hv as [_ <-].
  - reflexivity.
  - reflexivity.
  - rewrite email_only_refused in Happ. injection Happ as <- _. discriminate Hst.
Qed.


(** * Further properties of the handlers *)

(** unfolds every handler of the routing table *)
Ltac run_routes :=
  unfold app, sent, passport_authenticate_jwt, login, localStrategy,
    get_movies, get_movie, get_movies_by_genre, get_director,
    post_users, put_user, post_favorite, delete_favorite, get_favorites,
    delete_user, get_user,
    Movies_find_, Movies_findOne_by_id, Movies_find_by_genre, Movies_findOne_by_director,
    Users_findOne_, Users_create_, Users_findOneAndUpdate_set_,
    Users_findOneAndUpdate_push_, Users_findOneAndUpdate_pull_, Users_findOneAndRemove_,
    updating, store_op, read, bind, ret, get_clock in *;
  cbn [fst snd clock users movies log logged with_users] in *.

Ltac by_cases := repeat (case_match; simplify_eq/=; try done).

Section Invariants.
Context `{Collaborators}.

(** X1: No request changes the movies collection or the clock: the API only
    reads movies. *)
Theorem movies_never_change (req : request) (w : world) :
  movies (snd (app req w)) = movies w ∧ clock (snd (app req w)) = clock w.
Proof. run_routes. by_cases. Qed.

(** X2: Only registration, update, the two favourite routes and deletion can
    change the users collection: every other request, log-in included,
    leaves it as it was. *)
Theorem read_routes_keep_users (req : request) (w : world) :
  target req ≠ PostUsers →
  (∀ u, target req ≠ PutUser u) →
  (∀ u m, target req ≠ PostFavorite u m) →
  (∀ u m, target req ≠ DeleteFavorite u m) →
  (∀ u, target req ≠ DeleteUser u) →
  users (snd (app req w)) = users w.
Proof.
  intros Hreg Hput Hadd Hdel Hrm. run_routes.
  destruct (target req) eqn:Ht; try congruence; by_cases.
Qed.

Lemma update_first_ids (p : User.t → bool) (f : User.t → User.t) (l : list User.t) :
  (∀ d, User._id (f d) = User._id d) →
  User._id <$> snd (update_first p f l) = User._id <$> l.
Proof.
  intros Hid. induction l as [|d l IH]; cbn; [done|].
  destruct (p d); cbn.
  - by rewrite Hid.
  - destruct (update_first p f l) as [r l']. cbn in *. by rewrite IH.
Qed.

(** what a user document holds besides its favourites *)
Definition account (d : User.t)
  : string * option string * option string * option string * option string :=
  (User._id d, User.Username d, User.Password d, User.Email d, User.Birthday d).

Lemma update_first_accounts (p : User.t → bool) (f : User.t → User.t) (l : list User.t) :
  (∀ d, account (f d) = account d) →
  account <$> snd (update_first p f l) = account <$> l.
Proof.
  intros Hid. induction l as [|d l IH]; cbn; [done|].
  destruct (p d); cbn.
  - by rewrite Hid.
  - destruct (update_first p f l) as [r l']. cbn in *. by rewrite IH.
Qed.

(** X3: Apart from registration and deletion, no request adds, removes or
    reorders user documents: the sequence of their identifiers is kept. *)
Theorem identifiers_kept (req : request) (w : world) :
  target req ≠ PostUsers →
  (∀ u, target req ≠ DeleteUser u) →
  User._id <$> users (snd (app req w)) = User._id <$> users w.
Proof.
  intros Hreg Hrm. run_routes.
  destruct (target req) eqn:Ht; try congruence; by_cases;
    match goal with
    | Hu : update_first ?p ?f ?l = (_, ?l') |- _ =>
        replace l' with (snd (update_first p f l)) by (by rewrite Hu);
        by apply update_first_ids
    end.
Qed.

(** X4: The favourite routes change nothing but FavoriteMovies: identifier,
    Username, Password, Email and Birthday of every stored document are
    kept, whatever the request and whatever the store answers. *)
Theorem favorites_keep_accounts (req : request) (w : world) (u m : string) :
  target req = PostFavorite u m ∨ target req = DeleteFavorite u m →
  account <$> users (snd (app req w)) = account <$> users w.
Proof.
  intros [Ht | Ht]; run_routes; rewrite Ht; by_cases;
    match goal with
    | Hu : update_first ?p ?f ?l = (_, ?l') |- _ =>
        replace l' with (snd (update_first p f l)) by (by rewrite Hu);
        by apply update_first_accounts
    end.
Qed.

(** X5: Every request appends to the trace of store operations, and issues at
    most two of them. *)
Theorem at_most_two_operations (req : request) (w : world) :
  ∃ ops : list dbop,
    log (snd (app req w)) = (log w ++ ops)%list ∧ (List.length ops ≤ 2)%nat.
Proof.
  run_routes. by_cases;
    try (by exists []; rewrite app_nil_r; cbn; split; [|lia]);
    try (by eexists [_]; cbn; split; [|lia]);
    try (by eexists [_; _]; rewrite <- app_assoc; cbn; split; [|lia]).
Qed.

End Invariants.

Section Reads.
Context `{Collaborators}.

(** X6: GET /users/:Username is answered without any token check: whatever the
    request carries as bearer token (nothing, a forged or an expired one),
    the answer is 200 with the stored document of that Username, Password
    hash included, or with [null] when there is none. *)
Theorem get_user_needs_no_token (req : request) (w : world) (u : string) :
  target req = GetUser u →
  dbFault (Users_findOne (Some u)) = None →
  app req w = (Some (res_status 200 (JUser (List.find (by_Username (Some u)) (users w)))),
               logged (Users_findOne (Some u)) w).
Proof. intros Ht Hdb. run_routes. by rewrite Ht, Hdb. Qed.

(** X7: GET /movies/genres/:genre answers a verified request with exactly the
    movies whose genre has that name (possibly none), status 200. *)
Theorem movies_by_genre_exact (req : request) (w : world) (genre : string) :
  target req = GetMoviesByGenre genre →
  is_Some (jwtStrategy (clock w) req) →
  dbFault (Movies_find_genre genre) = None →
  ∃ found,
    fst (app req w) = Some (res_status 200 (JMovies found))
    ∧ ∀ m, In m found ↔ In m (movies w) ∧ Genre.Name (Movie.Genre m) = genre.
Proof.
  intros Ht [c Hc] Hdb. run_routes. rewrite Ht, Hc, Hdb. cbn.
  eexists. split; [done|]. intros m. rewrite filter_In, bool_decide_eq_true. done.
Qed.

(** X8: GET /movies/:MovieID answers a verified request with status 200 in both
    cases: the first movie with that identifier, or [null] exactly when no
    movie has it. *)
Theorem movie_by_id (req : request) (w : world) (id : string) :
  target req = GetMovie id →
  is_Some (jwtStrategy (clock w) req) →
  dbFault (Movies_findOne_id id) = None →
  ∃ found,
    fst (app req w) = Some (res_status 200 (JMovie found))
    ∧ (found = None ↔ ∀ m, In m (movies w) → Movie._id m ≠ id)
    ∧ (∀ m, found = Some m → In m (movies w) ∧ Movie._id m = id).
Proof.
  intros Ht [c Hc] Hdb. run_routes. rewrite Ht, Hc, Hdb. cbn.
  eexists. split; [done|]. split.
  - split.
    + intros Hnone m Hin Hid.
      pose proof (find_none _ _ Hnone m Hin) as Hno. cbn in Hno.
      by rewrite bool_decide_eq_true_2 in Hno.
    + intros Hall. destruct (List.find _ _) as [m|] eqn:Hf; [|done].
      apply find_some in Hf as [Hin Hid]. apply bool_decide_eq_true in Hid.
      by destruct (Hall m Hin).
  - intros m Hf. apply find_some in Hf as [Hin Hid]. by apply bool_decide_eq_true in Hid.
Qed.

(** X9: GET /directors/:name, when some movie has a director of that name,
    answers a verified request 200 with the director record of such a movie,
    whose name is the one asked for. *)
Theorem director_found (req : request) (w : world) (name : string) (m : Movie.t) :
  target req = GetDirector name →
  is_Some (jwtStrategy (clock w) req) →
  dbFault (Movies_findOne_director name) = None →
  In m (movies w) →
  Director.Name (Movie.Director m) = name →
  ∃ d, fst (app req w) = Some (res_status 200 (JDirector d))
       ∧ Director.Name d = name
       ∧ ∃ m', In m' (movies w) ∧ Movie.Director m' = d.
Proof.
  intros Ht [c Hc] Hdb Hin Hname. run_routes. rewrite Ht, Hc, Hdb. cbn.
  destruct (List.find _ _) as [m'|] eqn:Hf.
  - apply find_some in Hf as [Hin' Hn]. apply bool_decide_eq_true in Hn.
    exists (Movie.Director m'). eauto.
  - pose proof (find_none _ _ Hf m Hin) as Hno. cbn in Hno.
    by rewrite bool_decide_eq_true_2 in Hno.
Qed.

(** X10: GET /users/:Username/favorites for a Username that matches no user is
    not answered with an empty list: the handler reads [FavoriteMovies] of
    [null] and the answer is 500 with the text of the TypeError. *)
Theorem favorites_of_unknown_user_is_error (req : request) (w : world) (u : string) :
  target req = GetFavorites u →
  is_Some (jwtStrategy (clock w) req) →
  dbFault (Users_findOne (Some u)) = None →
  List.find (by_Username (Some u)) (users w) = None →
  app req w
  = (Some (res_status 500
       (Text "Error: TypeError: Cannot read property 'FavoriteMovies' of null")),
     logged (Users_findOne (Some u)) w).
Proof.
  intros Ht [c Hc] Hdb Hfind. run_routes. by rewrite Ht, Hc, Hdb, Hfind.
Qed.

End Reads.

Section Registration.
Context `{Collaborators}.

Lemma find_app_new (p : User.t → bool) (l : list User.t) (d : User.t) :
  List.find p l = None → p d = true → List.find p (l ++ [d]) = Some d.
Proof.
  intros Hnone Hd. induction l as [|x l IH]; cbn in *.
  - by rewrite Hd.
  - destruct (p x); [done|]. by apply IH.
Qed.


Lemma valid_username (req : request) (v : string) :
  validationResult req = [] → body req !! "Username" = Some v →
  isLength 5 v = true ∧ isAlphanumeric v = true.
Proof.
  intros Hvalid Hb. unfold validationResult in Hvalid.
  apply app_eq_nil in Hvalid as [Hlen Hvalid].
  apply app_eq_nil in Hvalid as [Haln _].
  split.
  - exact (check_passes _ _ _ _ _ Hlen (body_instance _ _ _ Hb)).
  - exact (check_passes _ _ _ _ _ Haln (body_instance _ _ _ Hb)).
Qed.

(** the world a successful registration leaves *)
Definition registered (req : request) (u p : string) (w : world) : world :=
  let doc := {| set_Username := Some u; set_Password := Some (hashPassword p);
                set_Email := body req !! "Email"; set_Birthday := body req !! "Birthday" |} in
  with_users (users w ++ [new_document (users w) doc])
    (logged (Users_create doc) (logged (Users_findOne (Some u)) w)).

Lemma post_users_created (req : request) (w : world) (u p : string) :
  target req = PostUsers →
  validationResult req = [] →
  body req !! "Username" = Some u →
  body req !! "Password" = Some p →
  List.find (by_Username (Some u)) (users w) = None →
  dbFault (Users_findOne (Some u)) = None →
  (∀ doc, dbFault (Users_create doc) = None) →
  app req w = (Some (res_status 201
                 (JNewUser (Some u) (body req !! "Email") (body req !! "Birthday"))),
               registered req u p w).
Proof.
  intros Ht Hvalid Hu Hp Hfind Hdb Hcreate. run_routes.
  rewrite Ht, Hvalid, Hu, Hp. cbn. rewrite Hdb, Hfind, Hcreate. done.
Qed.

Lemma registered_find (req : request) (w : world) (u p : string) :
  List.find (by_Username (Some u)) (users w) = None →
  List.find (by_Username (Some u)) (users (registered req u p w))
  = Some (new_document (users w)
            {| set_Username := Some u; set_Password := Some (hashPassword p);
               set_Email := body req !! "Email"; set_Birthday := body req !! "Birthday" |}).
Proof.
  intros Hfind. unfold registered. cbn.
  apply find_app_new; [done|]. unfold by_Username. cbn. by apply bool_decide_eq_true_2.
Qed.

(** X11: A registration that passes validation, for a Username not yet in the
    store and with a store that accepts both operations, is answered 201
    with Username, Email and Birthday only; it appends one document to the
    users collection, holding the hash of the Password and not the Password
    itself, no favourites, and a Username of at least five alphanumeric
    characters. *)
Theorem registration_creates_user (req : request) (w : world) (u p : string) :
  target req = PostUsers →
  validationResult req = [] →
  body req !! "Username" = Some u →
  body req !! "Password" = Some p →
  List.find (by_Username (Some u)) (users w) = None →
  dbFault (Users_findOne (Some u)) = None →
  (∀ doc, dbFault (Users_create doc) = None) →
  ∃ d : User.t,
    fst (app req w) = Some (res_status 201
                        (JNewUser (Some u) (body req !! "Email") (body req !! "Birthday")))
    ∧ users (snd (app req w)) = (users w ++ [d])%list
    ∧ User.Username d = Some u
    ∧ User.Password d = Some (hashPassword p)
    ∧ User.Email d = body req !! "Email"
    ∧ User.Birthday d = body req !! "Birthday"
    ∧ User.FavoriteMovies d = []
    ∧ isLength 5 u = true ∧ isAlphanumeric u = true.
Proof.
  intros Ht Hvalid Hu Hp Hfind Hdb Hcreate.
  rewrite (post_users_created req w u p) by done.
  eexists. split; [done|]. split; [done|]. cbn.
  do 5 (split; [done|]). by apply (valid_username req).
Qed.

(** X12: Round trip: after such a registration, GET /users/:Username (no token
    needed) returns the new document: the submitted Email and Birthday, and
    the hash of the submitted Password. *)
Theorem registration_then_fetch (req fetch : request) (w : world) (u p : string) :
  target req = PostUsers →
  validationResult req = [] →
  body req !! "Username" = Some u →
  body req !! "Password" = Some p →
  List.find (by_Username (Some u)) (users w) = None →
  (∀ op, dbFault op = None) →
  target fetch = GetUser u →
  ∃ d,
    fst (app fetch (snd (app req w))) = Some (res_status 200 (JUser (Some d)))
    ∧ User.Username d = Some u
    ∧ User.Email d = body req !! "Email"
    ∧ User.Birthday d = body req !! "Birthday"
    ∧ User.Password d = Some (hashPassword p).
Proof.
  intros Ht Hvalid Hu Hp Hfind Hdb Hfetch.
  rewrite (post_users_created req w u p) by done. cbn [snd].
  run_routes. rewrite Hfetch, Hdb. cbn [fst].
  rewrite (registered_find req w u p Hfind). eauto 10.
Qed.

(** X13: Registering twice: after a successful registration the same request is
    answered 400 "<Username> already exists" and creates nothing more. *)
Theorem registration_twice (req : request) (w : world) (u p : string) :
  target req = PostUsers →
  validationResult req = [] →
  body req !! "Username" = Some u →
  body req !! "Password" = Some p →
  List.find (by_Username (Some u)) (users w) = None →
  (∀ op, dbFault op = None) →
  fst (app req (snd (app req w))) = Some (res_status 400 (Text (u +:+ " already exists")))
  ∧ users (snd (app req (snd (app req w)))) = users (snd (app req w)).
Proof.
  intros Ht Hvalid Hu Hp Hfind Hdb.
  rewrite (post_users_created req w u p) by done. cbn [snd].
  pose proof (registered_find req w u p Hfind) as Hnow.
  run_routes. rewrite Ht, Hvalid, Hu, Hp. cbn. rewrite Hdb.
  cbn in Hnow. rewrite Hnow. done.
Qed.


End Registration.

Section Updates.
Context `{Collaborators}.

(** the path parameter is among the instances a chain checks *)
Lemma params_instance (req : request) (f v : string) :
  params req !! f = Some v →
  {| fi_location := Lparams; fi_value := Some v |} ∈ field_instances req f.
Proof.
  intros Hp. unfold field_instances.
  set (all := map _ check_locations).
  assert (Hin : In {| fi_location := Lparams; fi_value := Some v |}
                  (List.filter has_value all)).
  { apply filter_In. split; [|done].
    unfold all, check_locations. cbn [map req_lookup]. rewrite Hp. cbn. tauto. }
  destruct (List.filter has_value all) as [|i l]; [done|].
  by apply list_elem_of_In.
Qed.

(** X15: A user whose Username is shorter than five characters cannot be
    updated: the Username chains also check the Username of the path, so a
    verified PUT /users/:Username on such a path is answered 422 whatever
    the body holds, and nothing is stored. *)
Theorem put_short_path_rejected (req : request) (w : world) (u : string) :
  target req = PutUser u →
  is_Some (jwtStrategy (clock w) req) →
  (String.length u < 5)%nat →
  app req w = (Some (res_status 422 (JErrors (validationResult req))), w)
  ∧ "Username is required" ∈ msg <$> validationResult req.
Proof.
  intros Ht [c Hc] Hlen.
  assert (Hmsg : "Username is required" ∈ msg <$> validationResult req).
  { apply message_of_chain. left.
    eapply (check_reports _ _ _ _ {| fi_location := Lparams; fi_value := Some u |}).
    - apply params_instance. unfold params. rewrite Ht. apply lookup_singleton_eq.
    - by apply isLength_short. }
  split; [|done].
  pose proof (reported _ _ Hmsg) as Hne.
  run_routes. rewrite Ht, Hc. by destruct (validationResult req).
Qed.

(** X16: Updating a user that does not exist is not reported: a verified PUT
    that passes validation, for a Username matching no document, is
    answered 201 with [null], and the users collection is unchanged. *)
Theorem put_unknown_user_null (req : request) (w : world) (u p : string) :
  target req = PutUser u →
  is_Some (jwtStrategy (clock w) req) →
  validationResult req = [] →
  body req !! "Password" = Some p →
  (∀ op, dbFault op = None) →
  List.find (by_Username (Some u)) (users w) = None →
  fst (app req w) = Some (res_status 201 (JUser None))
  ∧ users (snd (app req w)) = users w.
Proof.
  intros Ht [c Hc] Hvalid Hp Hdb Hfind. run_routes.
  rewrite Ht, Hc, Hvalid, Hp. cbn. rewrite Hdb.
  by rewrite update_first_none.
Qed.

Lemma update_first_keeps (p : User.t → bool) (f : User.t → User.t) (l : list User.t) (x : User.t) :
  x ∈ l → p x = false → x ∈ snd (update_first p f l).
Proof.
  induction l as [|d l IH]; cbn; [done|].
  intros Hin Hx. apply elem_of_cons in Hin as [-> | Hin].
  - rewrite Hx. destruct (update_first p f l). apply list_elem_of_here.
  - destruct (p d); cbn.
    + by apply list_elem_of_further.
    + specialize (IH Hin Hx). destruct (update_first p f l).
      by apply list_elem_of_further.
Qed.

(** X17: The update does not check that a new Username is free: when the store
    accepts it, renaming a user to the Username of another stored document
    is answered 201 and leaves two different documents with that Username. *)
Theorem put_can_duplicate_username (req : request) (w : world) (u v p : string)
        (user other : User.t) :
  target req = PutUser u →
  is_Some (jwtStrategy (clock w) req) →
  validationResult req = [] →
  body req !! "Username" = Some v →
  body req !! "Password" = Some p →
  (∀ op, dbFault op = None) →
  List.find (by_Username (Some u)) (users w) = Some user →
  other ∈ users w →
  User.Username other = Some v →
  v ≠ u →
  User._id other ≠ User._id user →
  ∃ updated,
    fst (app req w) = Some (res_status 201 (JUser (Some updated)))
    ∧ updated ≠ other
    ∧ User.Username updated = Some v
    ∧ updated ∈ users (snd (app req w))
    ∧ other ∈ users (snd (app req w)).
Proof.
  intros Ht [c Hc] Hvalid Hv Hp Hdb Hfind Hin Hother Hne Hid.
  pose proof (valid_username_truthy req v Hvalid Hv) as Htruthy.
  assert (Hkeep : other ∈ snd (update_first (by_Username (Some u))
                                 (apply_set (build_updateObj req (hashPassword p)))
                                 (users w))).
  { apply update_first_keeps; [done|]. unfold by_Username.
    apply bool_decide_eq_false_2. rewrite Hother. congruence. }
  destruct (update_first_found _ (apply_set (build_updateObj req (hashPassword p))) _ _ Hfind)
    as (l' & Hupd & Hl').
  run_routes. rewrite Ht, Hc, Hvalid, Hp. cbn. rewrite Hdb.
  rewrite Hupd in *. cbn in *.
  eexists. split; [done|].
  split; [by intros <-; cbn in Hid|].
  split; [|done].
  unfold apply_set, build_updateObj. cbn. rewrite Hv. cbn. by rewrite Htruthy.
Qed.

End Updates.

Section FavoriteLists.
Context `{Collaborators}.

Lemma update_first_compose (p : User.t → bool) (f g : User.t → User.t) (l : list User.t) :
  (∀ d, p (f d) = p d) →
  update_first p g (snd (update_first p f l)) = update_first p (λ d, g (f d)) l.
Proof.
  intros Hp. induction l as [|d l IH]; cbn; [done|].
  destruct (p d) eqn:Hd; cbn.
  - by rewrite Hp, Hd.
  - destruct (update_first p f l) as [r l']. cbn in *. by rewrite Hd, IH.
Qed.

Lemma pull_after_push (m : string) (d : User.t) :
  m ∉ User.FavoriteMovies d → apply_pull m (apply_push m d) = d.
Proof.
  intros Hm. unfold apply_pull, apply_push, with_favorites. cbn.
  rewrite List.filter_app, filter_absent by done. cbn.
  rewrite bool_decide_eq_true_2 by done. cbn. rewrite app_nil_r. by destruct d.
Qed.

(** X18: POST /users/:Username/movies/:MovieID appends the identifier to the end
    of the user's FavoriteMovies, also when it is already in the list, and
    answers 200 with the updated document; the only store operation is the
    update itself, the movies collection is not consulted. *)
Theorem add_favorite_appends (req : request) (w : world) (u m : string) (user : User.t) :
  target req = PostFavorite u m →
  is_Some (jwtStrategy (clock w) req) →
  dbFault (Users_findOneAndUpdate_push u m) = None →
  List.find (by_Username (Some u)) (users w) = Some user →
  ∃ updated,
    fst (app req w) = Some (res_status 200 (JUser (Some updated)))
    ∧ User.FavoriteMovies updated = (User.FavoriteMovies user ++ [m])%list
    ∧ account updated = account user
    ∧ updated ∈ users (snd (app req w))
    ∧ log (snd (app req w)) = (log w ++ [Users_findOneAndUpdate_push u m])%list.
Proof.
  intros Ht [c Hc] Hdb Hfind.
  destruct (update_first_found _ (apply_push m) _ _ Hfind) as (l' & Hupd & Hl').
  run_routes. rewrite Ht, Hc, Hdb, Hupd. cbn. eauto 10.
Qed.

(** X19: DELETE /users/:Username/movies/:MovieID removes every occurrence of the
    identifier from the user's FavoriteMovies and keeps the other entries,
    in their order; it answers 200 with the updated document. *)
Theorem remove_favorite_removes_all (req : request) (w : world) (u m : string) (user : User.t) :
  target req = DeleteFavorite u m →
  is_Some (jwtStrategy (clock w) req) →
  dbFault (Users_findOneAndUpdate_pull u m) = None →
  List.find (by_Username (Some u)) (users w) = Some user →
  ∃ updated,
    fst (app req w) = Some (res_status 200 (JUser (Some updated)))
    ∧ (m ∉ User.FavoriteMovies updated)
    ∧ User.FavoriteMovies updated
      = List.filter (λ x, negb (bool_decide (x = m))) (User.FavoriteMovies user)
    ∧ (∀ x, x ≠ m → x ∈ User.FavoriteMovies updated ↔ x ∈ User.FavoriteMovies user)
    ∧ account updated = account user.
Proof.
  intros Ht [c Hc] Hdb Hfind.
  destruct (update_first_found _ (apply_pull m) _ _ Hfind) as (l' & Hupd & Hl').
  run_routes. rewrite Ht, Hc, Hdb, Hupd. cbn.
  eexists. split; [done|]. cbn. split; [|split; [done|split; [|done]]].
  - intros Hin. apply list_elem_of_In, filter_In in Hin as [_ Hm].
    by rewrite bool_decide_eq_true_2 in Hm.
  - intros x Hx. rewrite !list_elem_of_In, filter_In.
    rewrite bool_decide_eq_false_2 by done. cbn. tauto.
Qed.

(** X20: Adding a favourite that the user did not have and then removing it
    restores the users collection, and the second answer carries the user
    document as it was before the two requests. *)
Theorem add_then_remove_restores (add remove : request) (w : world) (u m : string)
        (user : User.t) :
  target add = PostFavorite u m →
  target remove = DeleteFavorite u m →
  is_Some (jwtStrategy (clock w) add) →
  is_Some (jwtStrategy (clock w) remove) →
  (∀ op, dbFault op = None) →
  List.find (by_Username (Some u)) (users w) = Some user →
  m ∉ User.FavoriteMovies user →
  fst (app remove (snd (app add w))) = Some (res_status 200 (JUser (Some user)))
  ∧ users (snd (app remove (snd (app add w)))) = users w.
Proof.
  intros Ha Hr [c Hc] [c' Hc'] Hdb Hfind Hm.
  pose proof (update_first_compose (by_Username (Some u)) (apply_push m) (apply_pull m)
                (users w) (λ d, eq_refl)) as Hcomp.
  rewrite (update_first_fixed (by_Username (Some u))
             (λ d, apply_pull m (apply_push m d)) (users w) user) in Hcomp
    by (done || by apply pull_after_push).
  run_routes. rewrite Ha, Hr, Hc. cbn. rewrite !Hdb.
  destruct (update_first _ (apply_push m) _) as [r l'] eqn:Hpush. cbn in *.
  rewrite Hc'. cbn. by rewrite Hcomp.
Qed.

End FavoriteLists.

Section Deletion.
Context `{Collaborators}.

Lemma remove_first_none (p : User.t → bool) (l : list User.t) :
  List.find p l = None → remove_first p l = (None, l).
Proof.
  induction l as [|d l IH]; cbn; [done|].
  destruct (p d); [done|]. intros Hl. by rewrite (IH Hl).
Qed.

Lemma remove_first_found (p : User.t → bool) (l : list User.t) (d : User.t) :
  List.find p l = Some d →
  ∃ l1 l2, l = (l1 ++ d :: l2)%list
           ∧ remove_first p l = (Some d, (l1 ++ l2)%list)
           ∧ List.find p l1 = None.
Proof.
  induction l as [|x l IH]; cbn; [done|].
  destruct (p x) eqn:Hx.
  - intros [= ->]. by exists [], l.
  - intros Hl. destruct (IH Hl) as (l1 & l2 & -> & -> & Hl1).
    exists (x :: l1), l2. cbn. by rewrite Hx.
Qed.

(** X21: DELETE /users/:Username removes the first document of that Username, and
    only that one, and answers 200 "<Username> was deleted."; when no
    document has the Username it answers 400 "<Username> was not found" and
    changes nothing. *)
Theorem delete_user_outcomes (req : request) (w : world) (u : string) :
  target req = DeleteUser u →
  is_Some (jwtStrategy (clock w) req) →
  dbFault (Users_findOneAndRemove u) = None →
  match List.find (by_Username (Some u)) (users w) with
  | Some d =>
      fst (app req w) = Some (res_status 200 (Text (u +:+ " was deleted.")))
      ∧ ∃ l1 l2, users w = (l1 ++ d :: l2)%list
                 ∧ users (snd (app req w)) = (l1 ++ l2)%list
                 ∧ List.find (by_Username (Some u)) l1 = None
  | None =>
      fst (app req w) = Some (res_status 400 (Text (u +:+ " was not found")))
      ∧ users (snd (app req w)) = users w
  end.
Proof.
  intros Ht [c Hc] Hdb. run_routes. rewrite Ht, Hc, Hdb.
  destruct (List.find _ _) as [d|] eqn:Hfind.
  - destruct (remove_first_found _ _ _ Hfind) as (l1 & l2 & Hl & -> & Hl1).
    cbn. split; [done|]. by exists l1, l2.
  - by rewrite remove_first_none.
Qed.

Lemma find_app_none (p : User.t → bool) (l1 l2 : list User.t) :
  List.find p l1 = None → List.find p l2 = None → List.find p (l1 ++ l2)%list = None.
Proof.
  intros H1 H2. induction l1 as [|x l1 IH]; cbn in *; [done|].
  destruct (p x); [done|]. by apply IH.
Qed.

Lemma unique_rest (u : string) (d : User.t) (l1 l2 : list User.t) :
  NoDup (User.Username <$> (l1 ++ d :: l2)%list) →
  User.Username d = Some u →
  List.find (by_Username (Some u)) l2 = None.
Proof.
  intros Hnd Hd. rewrite fmap_app, fmap_cons in Hnd.
  apply NoDup_app in Hnd as (_ & _ & Hnd). apply NoDup_cons in Hnd as [Hnotin _].
  destruct (List.find _ l2) as [x|] eqn:Hf; [|done].
  apply find_some in Hf as [Hin Hx]. apply bool_decide_eq_true in Hx.
  exfalso. apply Hnotin. rewrite Hd, <- Hx.
  apply list_elem_of_fmap_2. by apply list_elem_of_In.
Qed.

(** X22: When Usernames are unique in the store, a deleted user is gone: after a
    successful DELETE /users/:Username, GET /users/:Username is answered with
    [null]. *)
Theorem delete_then_fetch_null (req fetch : request) (w : world) (u : string) :
  target req = DeleteUser u →
  target fetch = GetUser u →
  is_Some (jwtStrategy (clock w) req) →
  (∀ op, dbFault op = None) →
  NoDup (User.Username <$> users w) →
  fst (app fetch (snd (app req w))) = Some (res_status 200 (JUser None)).
Proof.
  intros Ht Hf [c Hc] Hdb Hnd. run_routes. rewrite Ht, Hf, Hc, !Hdb.
  destruct (List.find (by_Username (Some u)) (users w)) as [d|] eqn:Hfind.
  - destruct (remove_first_found _ _ _ Hfind) as (l1 & l2 & Hl & -> & Hl1).
    cbn. rewrite find_app_none; [done | done |].
    rewrite Hl in Hnd. apply (unique_rest u d l1 l2 Hnd).
    apply find_some in Hfind as [_ Hd]. by apply bool_decide_eq_true in Hd.
  - rewrite remove_first_none by done. cbn. by rewrite Hfind.
Qed.

End Deletion.

Section Sessions.
Context `{Collaborators}.

(** X23: Every log-in request is answered, with status 200 or 400 and nothing
    else, store failures included, and leaves the users collection alone:
    signing cannot fail, since the user found under a Username has that
    Username as subject. *)
Theorem login_always_answers (req : request) (w : world) :
  target req = PostLogin →
  ∃ r, fst (app req w) = Some r
       ∧ (status r = 200 ∨ status r = 400)
       ∧ users (snd (app req w)) = users w.
Proof.
  intros Ht. run_routes. rewrite Ht.
  destruct (query req !! "Username") as [username|]; [|by eexists; cbn; eauto].
  destruct (query req !! "Password") as [password|]; [|by eexists; cbn; eauto].
  destruct (dbFault _); [by eexists; cbn; eauto|].
  destruct (List.find _ _) as [user|] eqn:Hfind; [|by eexists; cbn; eauto].
  destruct (password_matches password user); [|by eexists; cbn; eauto].
  apply find_some in Hfind as [_ Hu]. apply bool_decide_eq_true in Hu.
  unfold generateJWTToken. rewrite Hu. eexists. cbn. eauto.
Qed.

(** X24: A log-in with the Username of a stored user and a Password that matches
    its hash is answered 200 with a token and the user's Username, Email and
    Birthday passed through the xss filter; the token has the Username as
    subject, is issued at the time of the request and expires seven days
    later, and every protected route lets it through until then. *)
Theorem login_success (req : request) (w : world) (u p : string) (user : User.t) :
  target req = PostLogin →
  query req !! "Username" = Some u →
  query req !! "Password" = Some p →
  dbFault (Users_findOne (Some u)) = None →
  List.find (by_Username (Some u)) (users w) = Some user →
  password_matches p user = true →
  ∃ tok,
    app req w
    = (Some (res_status 200 (JLoginOk tok
         {| lu_Username := xss u;
            lu_FavoriteMovies := User.FavoriteMovies user;
            lu_Email := xss_js (User.Email user);
            lu_Birthday := xss_js (User.Birthday user) |})),
       logged (Users_findOne (Some u)) w)
    ∧ sub (payload tok) = u
    ∧ iat (payload tok) = clock w
    ∧ exp (payload tok) = clock w + 604800
    ∧ (∀ req' handler w',
         bearer req' = Some tok → clock w' ≤ clock w + 604800 →
         passport_authenticate_jwt req' handler w' = handler w').
Proof.
  intros Ht Hu Hp Hdb Hfind Hpw.
  pose proof Hfind as Hname. apply find_some in Hname as [_ Hname].
  apply bool_decide_eq_true in Hname.
  run_routes. rewrite Ht, Hu, Hp, Hdb, Hfind, Hpw.
  unfold generateJWTToken. rewrite Hname. cbn.
  eexists. split; [reflexivity|]. cbn. do 3 (split; [done|]).
  intros req' handler w' Hb Hclock. apply authenticate_jwt_passes.
  unfold jwtStrategy. rewrite Hb.
  match goal with |- is_Some (if verifyToken ?t ?k then _ else _) =>
    assert (Hv : verifyToken t k = true)
      by (apply verifyToken_spec; cbn; unfold seven_days; split; [done | lia]);
    rewrite Hv
  end.
  eauto.
Qed.

(** X25: Registration and log-in compose: when the hash of a password validates
    against that password, a user who has just registered can log in with
    the same Username and Password, and the token issued carries the stored
    hash among its claims. *)
Theorem registration_then_login (req enter : request) (w : world) (u p : string) :
  target req = PostUsers →
  validationResult req = [] →
  body req !! "Username" = Some u →
  body req !! "Password" = Some p →
  List.find (by_Username (Some u)) (users w) = None →
  (∀ op, dbFault op = None) →
  validatePassword p (hashPassword p) = true →
  target enter = PostLogin →
  query enter !! "Username" = Some u →
  query enter !! "Password" = Some p →
  ∃ tok lu,
    fst (app enter (snd (app req w))) = Some (res_status 200 (JLoginOk tok lu))
    ∧ sub (payload tok) = u
    ∧ User.Password (claim_user (payload tok)) = Some (hashPassword p).
Proof.
  intros Ht Hvalid Hu Hp Hfind Hdb Hhash Hl Hqu Hqp.
  rewrite (post_users_created req w u p) by done. cbn [snd].
  pose proof (registered_find req w u p Hfind) as Hnow.
  run_routes. rewrite Hl, Hqu, Hqp, Hdb. cbn in Hnow |- *. rewrite Hnow.
  unfold password_matches. cbn. rewrite Hhash.
  unfold generateJWTToken. cbn. eauto.
Qed.

End Sessions.

Section Failures.
Context `{Collaborators}.

(** X26: When the store refuses every operation with an error, no request changes
    the users collection; a verified request on a route other than
    registration, update and log-in is answered 500 with the text
    "Error: " followed by the store's error; a log-in is answered 400. *)
Theorem store_down (req : request) (w : world) (e : string) :
  (∀ op, dbFault op = Some e) →
  users (snd (app req w)) = users w
  ∧ (is_Some (jwtStrategy (clock w) req) →
     target req ≠ PostUsers → (∀ u, target req ≠ PutUser u) → target req ≠ PostLogin →
     fst (app req w) = Some (res_status 500 (Text ("Error: " +:+ e))))
  ∧ (target req = PostLogin →
     ∃ user, fst (app req w)
             = Some (res_status 400 (JLoginFailed "Something is not right" user))).
Proof.
  intros Hdb. split; [|split].
  - run_routes. by_cases; rewrite Hdb in *; simplify_eq.
  - intros [c Hc] Hreg Hput Hlogin. run_routes.
    destruct (target req) eqn:Ht; try congruence; cbn; rewrite ?Hc; cbn; by rewrite Hdb.
  - intros Ht. run_routes. rewrite Ht. by_cases; rewrite ?Hdb in *; simplify_eq; eauto.
Qed.

End Failures.

(** * The further properties on concrete requests *)

Definition bobby : User.t := {|
  User._id := "id-2";
  User.Username := Some "bobby1";
  User.Password := Some "hash:hunter22";
  User.Email := Some "bob@example.com";
  User.Birthday := None;
  User.FavoriteMovies := []
|}.

Definition two_users : world :=
  {| users := [alice; bobby]; movies := [vertigo]; clock := 1000; log := [] |}.

(** a store that refuses every operation *)
Definition failing_store : Collaborators := {|
  hashPassword := λ p, "hash:" +:+ p;
  hashPassword_undefined := None;
  validatePassword := λ p h, bool_decide (h = "hash:" +:+ p);
  isEmail := contains_char "@";
  xss := λ s, s;
  jws_sign := λ _ secret c, secret +:+ "." +:+ sub c;
  dbFault := λ _, Some "MongoNetworkError";
  newId := λ _, "id-new"
|}.

Definition carol_registration : request :=
  with_body (<[ "Username" := "carol1" ]> (<[ "Password" := "pass1234" ]>
              (<[ "Email" := "carol@example.com" ]> {[ "Birthday" := "2000-02-02" ]})))
    (plain_request PostUsers None).

Definition carol_login : request :=
  with_query (<[ "Password" := "pass1234" ]> {[ "Username" := "carol1" ]})
    (plain_request PostLogin None).

Definition rename_alice : request :=
  with_body (<[ "Username" := "bobby1" ]> (<[ "Password" := "secret123" ]>
              {[ "Email" := "alice@example.com" ]}))
    (alice_bearer (PutUser "alice1")).

Ltac token_verifies := exists (payload alice_token); reflexivity.

Lemma read_routes_keep_users_witness :
  target alice_login = PostLogin
  ∧ users (snd (@app sample_collaborators alice_login sample_world)) = users sample_world.
Proof.
  split; [reflexivity|].
  apply (@read_routes_keep_users sample_collaborators alice_login sample_world);
    discriminate.
Defined.

Lemma identifiers_kept_witness :
  target change_email = PutUser "alice1"
  ∧ User._id <$> users (snd (@app sample_collaborators change_email sample_world))
    = User._id <$> users sample_world.
Proof.
  split; [reflexivity|].
  apply (@identifiers_kept sample_collaborators change_email sample_world); discriminate.
Defined.

Lemma favorites_keep_accounts_witness :
  target (alice_bearer (PostFavorite "alice1" "xyz789")) = PostFavorite "alice1" "xyz789"
  ∧ account <$> users (snd (@app sample_collaborators
                              (alice_bearer (PostFavorite "alice1" "xyz789")) sample_world))
    = account <$> users sample_world.
Proof.
  split; [reflexivity|].
  apply (@favorites_keep_accounts sample_collaborators
           (alice_bearer (PostFavorite "alice1" "xyz789")) sample_world "alice1" "xyz789").
  left. reflexivity.
Defined.

Lemma get_user_needs_no_token_witness :
  bearer (plain_request (GetUser "alice1") None) = None
  ∧ @app sample_collaborators (plain_request (GetUser "alice1") None) sample_world
    = (Some (res_status 200 (JUser (List.find (by_Username (Some "alice1"))
                                      (users sample_world)))),
       logged (Users_findOne (Some "alice1")) sample_world).
Proof.
  split; [reflexivity|].
  exact (@get_user_needs_no_token sample_collaborators
           (plain_request (GetUser "alice1") None) sample_world "alice1" eq_refl eq_refl).
Defined.

Lemma movies_by_genre_exact_witness :
  ∃ found,
    fst (@app sample_collaborators (alice_bearer (GetMoviesByGenre "Thriller")) sample_world)
    = Some (res_status 200 (JMovies found))
    ∧ ∀ m, In m found ↔ In m (movies sample_world) ∧ Genre.Name (Movie.Genre m) = "Thriller".
Proof.
  apply (@movies_by_genre_exact sample_collaborators
           (alice_bearer (GetMoviesByGenre "Thriller")) sample_world "Thriller").
  - reflexivity.
  - token_verifies.
  - reflexivity.
Defined.

Lemma movie_by_id_witness :
  ∃ found,
    fst (@app sample_collaborators (alice_bearer (GetMovie "nosuchid")) sample_world)
    = Some (res_status 200 (JMovie found))
    ∧ (found = None ↔ ∀ m, In m (movies sample_world) → Movie._id m ≠ "nosuchid")
    ∧ (∀ m, found = Some m → In m (movies sample_world) ∧ Movie._id m = "nosuchid").
Proof.
  apply (@movie_by_id sample_collaborators
           (alice_bearer (GetMovie "nosuchid")) sample_world "nosuchid").
  - reflexivity.
  - token_verifies.
  - reflexivity.
Defined.

Lemma director_found_witness :
  In vertigo (movies sample_world)
  ∧ ∃ d, fst (@app sample_collaborators (alice_bearer (GetDirector "Alfred Hitchcock"))
                sample_world)
         = Some (res_status 200 (JDirector d))
         ∧ Director.Name d = "Alfred Hitchcock"
         ∧ ∃ m', In m' (movies sample_world) ∧ Movie.Director m' = d.
Proof.
  assert (Hin : In vertigo (movies sample_world)) by (left; reflexivity).
  split; [exact Hin|].
  apply (@director_found sample_collaborators
           (alice_bearer (GetDirector "Alfred Hitchcock")) sample_world
           "Alfred Hitchcock" vertigo).
  - reflexivity.
  - token_verifies.
  - reflexivity.
  - exact Hin.
  - reflexivity.
Defined.

Lemma favorites_of_unknown_user_is_error_witness :
  List.find (by_Username (Some "nobody")) (users sample_world) = None
  ∧ @app sample_collaborators (alice_bearer (GetFavorites "nobody")) sample_world
    = (Some (res_status 500
         (Text "Error: TypeError: Cannot read property 'FavoriteMovies' of null")),
       logged (Users_findOne (Some "nobody")) sample_world).
Proof.
  split; [reflexivity|].
  apply (@favorites_of_unknown_user_is_error sample_collaborators
           (alice_bearer (GetFavorites "nobody")) sample_world "nobody").
  - reflexivity.
  - token_verifies.
  - reflexivity.
  - reflexivity.
Defined.

Lemma registration_creates_user_witness :
  @validationResult sample_collaborators carol_registration = []
  ∧ ∃ d : User.t,
      fst (@app sample_collaborators carol_registration sample_world)
      = Some (res_status 201
                (JNewUser (Some "carol1") (body carol_registration !! "Email")
                   (body carol_registration !! "Birthday")))
      ∧ users (snd (@app sample_collaborators carol_registration sample_world))
        = (users sample_world ++ [d])%list
      ∧ User.Username d = Some "carol1"
      ∧ User.Password d = Some (@hashPassword sample_collaborators "pass1234")
      ∧ User.Email d = body carol_registration !! "Email"
      ∧ User.Birthday d = body carol_registration !! "Birthday"
      ∧ User.FavoriteMovies d = []
      ∧ isLength 5 "carol1" = true ∧ isAlphanumeric "carol1" = true.
Proof.
  split; [reflexivity|].
  apply (@registration_creates_user sample_collaborators carol_registration sample_world
           "carol1" "pass1234"); reflexivity.
Defined.

Lemma registration_then_fetch_witness :
  @validationResult sample_collaborators carol_registration = []
  ∧ ∃ d,
      fst (@app sample_collaborators (plain_request (GetUser "carol1") None)
             (snd (@app sample_collaborators carol_registration sample_world)))
      = Some (res_status 200 (JUser (Some d)))
      ∧ User.Username d = Some "carol1"
      ∧ User.Email d = body carol_registration !! "Email"
      ∧ User.Birthday d = body carol_registration !! "Birthday"
      ∧ User.Password d = Some (@hashPassword sample_collaborators "pass1234").
Proof.
  split; [reflexivity|].
  apply (@registration_then_fetch sample_collaborators carol_registration
           (plain_request (GetUser "carol1") None) sample_world "carol1" "pass1234");
    reflexivity.
Defined.

Lemma registration_twice_witness :
  @validationResult sample_collaborators carol_registration = []
  ∧ fst (@app sample_collaborators carol_registration
           (snd (@app sample_collaborators carol_registration sample_world)))
    = Some (res_status 400 (Text ("carol1" +:+ " already exists")))
  ∧ users (snd (@app sample_collaborators carol_registration
                  (snd (@app sample_collaborators carol_registration sample_world))))
    = users (snd (@app sample_collaborators carol_registration sample_world)).
Proof.
  split; [reflexivity|].
  apply (@registration_twice sample_collaborators carol_registration sample_world
           "carol1" "pass1234"); reflexivity.
Defined.


Lemma put_short_path_rejected_witness :
  (String.length "bob" < 5)%nat
  ∧ @app sample_collaborators
      (with_body (body change_email) (alice_bearer (PutUser "bob"))) sample_world
    = (Some (res_status 422 (JErrors (@validationResult sample_collaborators
               (with_body (body change_email) (alice_bearer (PutUser "bob")))))),
       sample_world)
  ∧ "Username is required"
      ∈ msg <$> @validationResult sample_collaborators
                  (with_body (body change_email) (alice_bearer (PutUser "bob"))).
Proof.
  assert (Hlen : (String.length "bob" < 5)%nat) by (cbn; lia).
  split; [exact Hlen|].
  apply (@put_short_path_rejected sample_collaborators
           (with_body (body change_email) (alice_bearer (PutUser "bob"))) sample_world "bob").
  - reflexivity.
  - token_verifies.
  - exact Hlen.
Defined.

Lemma put_unknown_user_null_witness :
  List.find (by_Username (Some "nobody")) (users sample_world) = None
  ∧ fst (@app sample_collaborators
           (with_body (body change_email) (alice_bearer (PutUser "nobody"))) sample_world)
    = Some (res_status 201 (JUser None))
  ∧ users (snd (@app sample_collaborators
                  (with_body (body change_email) (alice_bearer (PutUser "nobody")))
                  sample_world))
    = users sample_world.
Proof.
  split; [reflexivity|].
  apply (@put_unknown_user_null sample_collaborators
           (with_body (body change_email) (alice_bearer (PutUser "nobody"))) sample_world
           "nobody" "secret123").
  - reflexivity.
  - token_verifies.
  - reflexivity.
  - reflexivity.
  - reflexivity.
  - reflexivity.
Defined.

Lemma put_can_duplicate_username_witness :
  List.find (by_Username (Some "alice1")) (users two_users) = Some alice
  ∧ bobby ∈ users two_users
  ∧ ∃ updated,
      fst (@app sample_collaborators rename_alice two_users)
      = Some (res_status 201 (JUser (Some updated)))
      ∧ updated ≠ bobby
      ∧ User.Username updated = Some "bobby1"
      ∧ updated ∈ users (snd (@app sample_collaborators rename_alice two_users))
      ∧ bobby ∈ users (snd (@app sample_collaborators rename_alice two_users)).
Proof.
  assert (Hin : bobby ∈ users two_users)
    by (apply list_elem_of_further, list_elem_of_here).
  split; [reflexivity|]. split; [exact Hin|].
  apply (@put_can_duplicate_username sample_collaborators rename_alice two_users
           "alice1" "bobby1" "secret123" alice bobby).
  - reflexivity.
  - token_verifies.
  - reflexivity.
  - reflexivity.
  - reflexivity.
  - reflexivity.
  - reflexivity.
  - exact Hin.
  - reflexivity.
  - discriminate.
  - discriminate.
Defined.

Lemma add_favorite_appends_witness :
  List.find (by_Username (Some "alice1")) (users sample_world) = Some alice
  ∧ ∃ updated,
      fst (@app sample_collaborators (alice_bearer (PostFavorite "alice1" "abc123"))
             sample_world)
      = Some (res_status 200 (JUser (Some updated)))
      ∧ User.FavoriteMovies updated = (User.FavoriteMovies alice ++ ["abc123"])%list
      ∧ account updated = account alice
      ∧ updated ∈ users (snd (@app sample_collaborators
                                (alice_bearer (PostFavorite "alice1" "abc123")) sample_world))
      ∧ log (snd (@app sample_collaborators
                    (alice_bearer (PostFavorite "alice1" "abc123")) sample_world))
        = (log sample_world ++ [Users_findOneAndUpdate_push "alice1" "abc123"])%list.
Proof.
  split; [reflexivity|].
  apply (@add_favorite_appends sample_collaborators
           (alice_bearer (PostFavorite "alice1" "abc123")) sample_world "alice1" "abc123" alice).
  - reflexivity.
  - token_verifies.
  - reflexivity.
  - reflexivity.
Defined.

Lemma remove_favorite_removes_all_witness :
  List.find (by_Username (Some "alice1")) (users sample_world) = Some alice
  ∧ ∃ updated,
      fst (@app sample_collaborators (alice_bearer (DeleteFavorite "alice1" "abc123"))
             sample_world)
      = Some (res_status 200 (JUser (Some updated)))
      ∧ ("abc123" ∉ User.FavoriteMovies updated)
      ∧ User.FavoriteMovies updated
        = List.filter (λ x, negb (bool_decide (x = "abc123"))) (User.FavoriteMovies alice)
      ∧ (∀ x, x ≠ "abc123" →
           x ∈ User.FavoriteMovies updated ↔ x ∈ User.FavoriteMovies alice)
      ∧ account updated = account alice.
Proof.
  split; [reflexivity|].
  apply (@remove_favorite_removes_all sample_collaborators
           (alice_bearer (DeleteFavorite "alice1" "abc123")) sample_world
           "alice1" "abc123" alice).
  - reflexivity.
  - token_verifies.
  - reflexivity.
  - reflexivity.
Defined.

Lemma add_then_remove_restores_witness :
  ("xyz789" ∉ User.FavoriteMovies alice)
  ∧ fst (@app sample_collaborators (alice_bearer (DeleteFavorite "alice1" "xyz789"))
           (snd (@app sample_collaborators (alice_bearer (PostFavorite "alice1" "xyz789"))
                   sample_world)))
    = Some (res_status 200 (JUser (Some alice)))
  ∧ users (snd (@app sample_collaborators (alice_bearer (DeleteFavorite "alice1" "xyz789"))
                  (snd (@app sample_collaborators
                          (alice_bearer (PostFavorite "alice1" "xyz789")) sample_world))))
    = users sample_world.
Proof.
  assert (Hm : "xyz789" ∉ User.FavoriteMovies alice).
  { apply not_elem_of_cons. split; [discriminate | apply not_elem_of_nil]. }
  split; [exact Hm|].
  apply (@add_then_remove_restores sample_collaborators
           (alice_bearer (PostFavorite "alice1" "xyz789"))
           (alice_bearer (DeleteFavorite "alice1" "xyz789")) sample_world
           "alice1" "xyz789" alice).
  - reflexivity.
  - reflexivity.
  - token_verifies.
  - token_verifies.
  - reflexivity.
  - reflexivity.
  - exact Hm.
Defined.

Lemma delete_user_outcomes_witness :
  List.find (by_Username (Some "alice1")) (users two_users) = Some alice
  ∧ fst (@app sample_collaborators (alice_bearer (DeleteUser "alice1")) two_users)
    = Some (res_status 200 (Text ("alice1" +:+ " was deleted.")))
  ∧ ∃ l1 l2, users two_users = (l1 ++ alice :: l2)%list
             ∧ users (snd (@app sample_collaborators (alice_bearer (DeleteUser "alice1"))
                             two_users)) = (l1 ++ l2)%list
             ∧ List.find (by_Username (Some "alice1")) l1 = None.
Proof.
  split; [reflexivity|].
  exact (@delete_user_outcomes sample_collaborators (alice_bearer (DeleteUser "alice1"))
           two_users "alice1" eq_refl
           (ex_intro _ (payload alice_token) eq_refl) eq_refl).
Defined.

Lemma delete_then_fetch_null_witness :
  NoDup (User.Username <$> users two_users)
  ∧ fst (@app sample_collaborators (plain_request (GetUser "alice1") None)
           (snd (@app sample_collaborators (alice_bearer (DeleteUser "alice1")) two_users)))
    = Some (res_status 200 (JUser None)).
Proof.
  assert (Hnd : NoDup (User.Username <$> users two_users)).
  { cbn. apply NoDup_cons. split.
    - intros Hin. apply list_elem_of_singleton in Hin. discriminate Hin.
    - apply NoDup_singleton. }
  split; [exact Hnd|].
  apply (@delete_then_fetch_null sample_collaborators (alice_bearer (DeleteUser "alice1"))
           (plain_request (GetUser "alice1") None) two_users "alice1").
  - reflexivity.
  - reflexivity.
  - token_verifies.
  - reflexivity.
  - exact Hnd.
Defined.

Lemma login_always_answers_witness :
  target wrong_password_login = PostLogin
  ∧ ∃ r, fst (@app sample_collaborators wrong_password_login sample_world) = Some r
         ∧ (status r = 200 ∨ status r = 400)
         ∧ users (snd (@app sample_collaborators wrong_password_login sample_world))
           = users sample_world.
Proof.
  split; [reflexivity|].
  exact (@login_always_answers sample_collaborators wrong_password_login sample_world
           eq_refl).
Defined.

Lemma login_success_witness :
  @password_matches sample_collaborators "secret123" alice = true
  ∧ ∃ tok,
      @app sample_collaborators alice_login sample_world
      = (Some (res_status 200 (JLoginOk tok
           {| lu_Username := @xss sample_collaborators "alice1";
              lu_FavoriteMovies := User.FavoriteMovies alice;
              lu_Email := @xss_js sample_collaborators (User.Email alice);
              lu_Birthday := @xss_js sample_collaborators (User.Birthday alice) |})),
         logged (Users_findOne (Some "alice1")) sample_world)
      ∧ sub (payload tok) = "alice1"
      ∧ iat (payload tok) = clock sample_world
      ∧ exp (payload tok) = clock sample_world + 604800
      ∧ (∀ req' handler w',
           bearer req' = Some tok → clock w' ≤ clock sample_world + 604800 →
           @passport_authenticate_jwt sample_collaborators req' handler w' = handler w').
Proof.
  split; [reflexivity|].
  apply (@login_success sample_collaborators alice_login sample_world
           "alice1" "secret123" alice); reflexivity.
Defined.

Lemma registration_then_login_witness :
  @validatePassword sample_collaborators "pass1234"
    (@hashPassword sample_collaborators "pass1234") = true
  ∧ ∃ tok lu,
      fst (@app sample_collaborators carol_login
             (snd (@app sample_collaborators carol_registration sample_world)))
      = Some (res_status 200 (JLoginOk tok lu))
      ∧ sub (payload tok) = "carol1"
      ∧ User.Password (claim_user (payload tok))
        = Some (@hashPassword sample_collaborators "pass1234").
Proof.
  split; [reflexivity|].
  apply (@registration_then_login sample_collaborators carol_registration carol_login
           sample_world "carol1" "pass1234"); reflexivity.
Defined.

Lemma store_down_witness :
  (∀ op, @dbFault failing_store op = Some "MongoNetworkError")
  ∧ users (snd (@app failing_store (alice_bearer GetMovies) sample_world))
    = users sample_world
  ∧ fst (@app failing_store (alice_bearer GetMovies) sample_world)
    = Some (res_status 500 (Text ("Error: " +:+ "MongoNetworkError"))).
Proof.
  assert (Hdown : ∀ op, @dbFault failing_store op = Some "MongoNetworkError")
    by (intros op; reflexivity).
  split; [exact Hdown|].
  destruct (@store_down failing_store (alice_bearer GetMovies) sample_world
              "MongoNetworkError" Hdown) as (Hkept & H500 & _).
  split; [exact Hkept|].
  apply H500; [token_verifies | discriminate ..].
Defined.
